(** * Instagram-Agents: the post-creation workflow and its three agents

    A shallow embedding of [src/workflow.py], [src/editor_agent.py],
    [src/drafter_agent.py] and [src/researcher_agent.py].
    The formatter of [src/utils.py] and the parser of
    [src/style_vault_parser.py] follow them.

    - Python values (what [json.loads] returns and what the agents pass
      around) are the inductive [value]; a [dict] is an association list in
      insertion order.
    - Code that may raise runs in the error monad [result]; code that also
      calls the language model or the search client runs in [M], which
      threads the log of external calls made so far.
    - The language model, the search client and [json.loads] are outside
      the repository: they are parameters of the development.
    - The LangGraph executor is modelled as following the edges declared in
      [_build_graph] until [END]; its fuel is the number of nodes it may
      run, and running out of it raises [GraphRecursionError]. *)

From Stdlib Require Import ZArith List String Ascii Bool Lia.
From Stdlib Require Import DecimalString SpecFloat.
Import ListNotations.

#[local] Set Warnings "-register-all".
#[local] Open Scope string_scope.
#[local] Open Scope Z_scope.

(** ** Python values *)

Inductive value : Type :=
| VNone
| VBool (b : bool)
| VInt (n : Z)
| VFloat (f : spec_float)
| VStr (s : string)
| VList (l : list value)
| VDict (d : list (string * value)).

(** A [dict] with string keys, in insertion order. *)
Definition pydict : Type := list (string * value).

Inductive exn_class : Type :=
| JSONDecodeError | ValueError | TypeError | AttributeError | KeyError
| GraphRecursionError
| OtherException.

(** An exception: its class and [str(e)]. *)
Record exn : Type := mkExn { exn_kind : exn_class; exn_str : string }.

Definition is_json_decode_error (e : exn) : bool :=
  match exn_kind e with JSONDecodeError => true | _ => false end.

(** ** The error monad of pure Python code *)

Definition result (A : Type) : Type := (exn + A)%type.

Module ResultNotations.
Declare Scope result_scope.
Delimit Scope result_scope with result.
Notation "x <~ c ;; k" :=
  (match c with inl e => inl e | inr x => k end)
    (at level 61, c at next level, right associativity) : result_scope.
End ResultNotations.
Import ResultNotations.

Definition throw {A : Type} (k : exn_class) (msg : string) : result A :=
  inl (mkExn k msg).

(** ** Strings *)

Definition nl : string := String (ascii_of_nat 10) EmptyString.
Definition dq : string := String (ascii_of_nat 34) EmptyString.
Definition sq : string := String (ascii_of_nat 39) EmptyString.
Definition quoted (s : string) : string := dq ++ s ++ dq.

Definition strlen (s : string) : Z := Z.of_nat (String.length s).

(** [str.isspace] on the ASCII range: white space of one byte. *)
Definition py_isspace (c : ascii) : bool :=
  let n := nat_of_ascii c in
  ((9 <=? n)%nat && (n <=? 13)%nat) || ((28 <=? n)%nat && (n <=? 32)%nat).

(** [sub in s] *)
Definition str_contains (sub s : string) : bool :=
  match String.index 0 sub s with Some _ => true | None => false end.

(** [s.find(sub, start)]: the first position from [start] on, or [-1]. *)
Definition str_find (s sub : string) (start : Z) : Z :=
  match String.index (Z.to_nat start) sub s with
  | Some i => Z.of_nat i
  | None => -1
  end.

(** How a slice bound is clamped for a sequence of length [len]. *)
Definition slice_bound (len i : Z) : Z :=
  if i <? 0 then Z.max 0 (i + len) else Z.min i len.

(** [s[a:b]] *)
Definition str_slice (s : string) (a b : Z) : string :=
  let a' := slice_bound (strlen s) a in
  let b' := slice_bound (strlen s) b in
  String.substring (Z.to_nat a') (Z.to_nat (b' - a')) s.

(** [l[:k]] on a list. *)
Definition list_slice_to {A : Type} (l : list A) (k : Z) : list A :=
  firstn (Z.to_nat (slice_bound (Z.of_nat (List.length l)) k)) l.

(** [sep.join(parts)] *)
Fixpoint join (sep : string) (parts : list string) : string :=
  match parts with
  | [] => EmptyString
  | [p] => p
  | p :: rest => p ++ sep ++ join sep rest
  end.

(** [c * n] for a one-character string. *)
Fixpoint repeat_char (c : ascii) (n : nat) : string :=
  match n with
  | O => EmptyString
  | S n' => String c (repeat_char c n')
  end.

(** The length in bytes of the white-space character that starts [s], and
    [0] when none does.  Text is held as its UTF-8 encoding; white space is
    what [str.split] and [str.isspace] take for it: U+0009 to U+000D,
    U+001C to U+0020, U+0085, U+00A0, U+1680, U+2000 to U+200A, U+2028,
    U+2029, U+202F, U+205F and U+3000. *)
Definition space_length (s : string) : nat :=
  match s with
  | EmptyString => 0%nat
  | String c rest =>
      if py_isspace c then 1%nat
      else
        let b0 := nat_of_ascii c in
        match rest with
        | EmptyString => 0%nat
        | String d rest' =>
            let b1 := nat_of_ascii d in
            if (b0 =? 194)%nat then
              if (b1 =? 133)%nat || (b1 =? 160)%nat then 2%nat else 0%nat
            else
              match rest' with
              | EmptyString => 0%nat
              | String e _ =>
                  let b2 := nat_of_ascii e in
                  if ((b0 =? 225)%nat && (b1 =? 154)%nat && (b2 =? 128)%nat)
                     || ((b0 =? 226)%nat && (b1 =? 128)%nat
                         && (((128 <=? b2)%nat && (b2 <=? 138)%nat)
                             || (b2 =? 168)%nat || (b2 =? 169)%nat
                             || (b2 =? 175)%nat))
                     || ((b0 =? 226)%nat && (b1 =? 129)%nat && (b2 =? 159)%nat)
                     || ((b0 =? 227)%nat && (b1 =? 128)%nat && (b2 =? 128)%nat)
                  then 3%nat else 0%nat
              end
        end
  end.

(** [s.lstrip()]; [skip] counts the bytes still to pass of a white-space
    character of several bytes. *)
Fixpoint lstrip_aux (s : string) (skip : nat) : string :=
  match s with
  | EmptyString => EmptyString
  | String c s' =>
      match skip with
      | S k => lstrip_aux s' k
      | O =>
          match space_length s with
          | S k => lstrip_aux s' k
          | O => s
          end
      end
  end.

Definition lstrip (s : string) : string := lstrip_aux s 0%nat.

(** [s] is white space from end to end. *)
Fixpoint all_space (s : string) (skip : nat) : bool :=
  match s with
  | EmptyString => true
  | String c s' =>
      match skip with
      | S k => all_space s' k
      | O =>
          match space_length s with
          | S k => all_space s' k
          | O => false
          end
      end
  end.

(** [s.rstrip()] *)
Fixpoint rstrip (s : string) : string :=
  match s with
  | EmptyString => EmptyString
  | String c s' =>
      if all_space s 0%nat then EmptyString else String c (rstrip s')
  end.

(** [s.strip()] *)
Definition strip (s : string) : string := rstrip (lstrip s).

(** Words of [s.split()]: maximal runs of characters that are not white
    space.  [skip] counts the bytes still to pass of a white-space
    character of several bytes. *)
Fixpoint split_words_aux (s : string) (inword : bool) (skip : nat) : nat :=
  match s with
  | EmptyString => 0%nat
  | String c s' =>
      match skip with
      | S k => split_words_aux s' inword k
      | O =>
          match space_length s with
          | S k => split_words_aux s' false k
          | O =>
              if inword then split_words_aux s' true 0%nat
              else S (split_words_aux s' true 0%nat)
          end
      end
  end.

(** [len(s.split())] *)
Definition word_count (s : string) : Z :=
  Z.of_nat (split_words_aux s false 0%nat).

Definition chars (s : string) : list string :=
  map (fun c => String c EmptyString) (list_ascii_of_string s).

Definition str_of_Z (n : Z) : string := NilZero.string_of_int (Z.to_int n).

(** ** Dictionaries *)

Fixpoint dict_lookup (k : string) (d : pydict) : option value :=
  match d with
  | [] => None
  | (k', v) :: d' => if String.eqb k k' then Some v else dict_lookup k d'
  end.

(** [d.get(k, default)] *)
Definition dict_get (d : pydict) (k : string) (default : value) : value :=
  match dict_lookup k d with Some v => v | None => default end.

(** [k in d] *)
Definition dict_has (k : string) (d : pydict) : bool :=
  match dict_lookup k d with Some _ => true | None => false end.

(** [d[k] = v]: an existing key keeps its place, a new one goes last. *)
Fixpoint dict_set (d : pydict) (k : string) (v : value) : pydict :=
  match d with
  | [] => [(k, v)]
  | (k', v') :: d' =>
      if String.eqb k k' then (k, v) :: d' else (k', v') :: dict_set d' k v
  end.

(** ** Operations on values *)

(** [v == s] for a string literal [s]. *)
Definition is_str (v : value) (s : string) : bool :=
  match v with VStr t => String.eqb t s | _ => false end.

Definition float_is_zero (f : spec_float) : bool :=
  match f with S754_zero _ => true | _ => false end.

(** [bool(v)] *)
Definition py_truthy (v : value) : bool :=
  match v with
  | VNone => false
  | VBool b => b
  | VInt n => negb (n =? 0)
  | VFloat f => negb (float_is_zero f)
  | VStr s => negb (String.eqb s EmptyString)
  | VList l => match l with [] => false | _ => true end
  | VDict d => match d with [] => false | _ => true end
  end.

(** [v.get(k, default)]: only a [dict] has the method. *)
Definition py_get (v : value) (k : string) (default : value) : result value :=
  match v with
  | VDict d => inr (dict_get d k default)
  | _ => throw AttributeError "object has no attribute 'get'"
  end.

(** [k in v] for a string [k]. *)
Definition py_in (k : string) (v : value) : result bool :=
  match v with
  | VDict d => inr (dict_has k d)
  | VList l => inr (existsb (fun x => is_str x k) l)
  | VStr s => inr (str_contains k s)
  | _ => throw TypeError "argument is not iterable"
  end.

(** [v[k]] for a string [k]. *)
Definition py_getitem (v : value) (k : string) : result value :=
  match v with
  | VDict d =>
      match dict_lookup k d with
      | Some x => inr x
      | None => throw KeyError (sq ++ k ++ sq)
      end
  | VList _ | VStr _ => throw TypeError "indices must be integers"
  | _ => throw TypeError "object is not subscriptable"
  end.

(** [v[k] = x] for a string [k]. *)
Definition py_setitem (v : value) (k : string) (x : value) : result value :=
  match v with
  | VDict d => inr (VDict (dict_set d k x))
  | _ => throw TypeError "object does not support item assignment"
  end.

(** [len(v)] *)
Definition py_len (v : value) : result Z :=
  match v with
  | VStr s => inr (strlen s)
  | VList l => inr (Z.of_nat (List.length l))
  | VDict d => inr (Z.of_nat (List.length d))
  | _ => throw TypeError "object has no len()"
  end.

(** [v[:k]]; a [dict] cannot be sliced. *)
Definition py_slice_to (v : value) (k : Z) : result value :=
  match v with
  | VStr s => inr (VStr (str_slice s 0 k))
  | VList l => inr (VList (list_slice_to l k))
  | VDict _ => throw TypeError "unhashable type: 'slice'"
  | _ => throw TypeError "object is not subscriptable"
  end.

(** The elements [for x in v] goes through. *)
Definition py_iter (v : value) : result (list value) :=
  match v with
  | VList l => inr l
  | VStr s => inr (map VStr (chars s))
  | VDict d => inr (map (fun kv => VStr (fst kv)) d)
  | _ => throw TypeError "object is not iterable"
  end.

Fixpoint all_strs (l : list value) : result (list string) :=
  match l with
  | [] => inr []
  | VStr s :: l' => (r <~ all_strs l' ;; inr (s :: r))%result
  | _ :: _ => throw TypeError "sequence item: expected str instance"
  end.

(** [sep.join(v)] *)
Definition py_join (sep : string) (v : value) : result string :=
  (xs <~ py_iter v ;; ss <~ all_strs xs ;; inr (join sep ss))%result.

(** ** External calls

    The agents call a language model ([self.llm.invoke]) and a search
    client ([self.tavily_client.search]).  Both are opaque and may answer
    differently each time, so an answer is a function of the request and of
    the log of calls made before it.  Every call is appended to the log,
    whether it returns or raises. *)

Inductive call : Type :=
| LlmCall (system human : string)
| SearchCall (query : string).

Definition world : Type := list call.

Definition M (A : Type) : Type := world -> result A * world.

Definition ret {A : Type} (a : A) : M A := fun w => (inr a, w).

Definition raise {A : Type} (e : exn) : M A := fun w => (inl e, w).

Definition bind {A B : Type} (m : M A) (k : A -> M B) : M B :=
  fun w => match m w with
           | (inl e, w') => (inl e, w')
           | (inr a, w') => k a w'
           end.

(** A pure computation, possibly raising, inside [M]. *)
Definition lift {A : Type} (r : result A) : M A := fun w => (r, w).

(** [try: body  except Exception as e: handler e] *)
Definition try_except {A : Type} (body : M A) (handler : exn -> M A) : M A :=
  fun w => match body w with
           | (inl e, w') => handler e w'
           | (inr a, w') => (inr a, w')
           end.

Module MNotations.
Declare Scope M_scope.
Delimit Scope M_scope with M.
Notation "x <- c ;; k" := (bind c (fun x => k))
  (at level 61, c at next level, right associativity) : M_scope.
Notation "' p <- c ;; k" := (bind c (fun x => let 'p := x in k))
  (at level 61, p pattern, c at next level, right associativity) : M_scope.
End MNotations.
Import MNotations.

(** The interfaces the workflow and the editor are handed
    ([InstagramWorkflow.__init__], [EditorInChiefAgent.__init__]): any
    objects with these methods. *)

Record ResearcherAgent : Type := {
  research : string -> value -> M pydict
}.

Record DrafterAgent : Type := {
  draft_post : pydict -> value -> M pydict;
  format_post_for_display : pydict -> result string
}.

Record EditorInChiefAgent : Type := {
  review_post : pydict -> pydict -> M pydict;
  execute_action : pydict -> pydict -> pydict -> string -> M (pydict * pydict)
}.

Fixpoint map_result {A B : Type} (f : A -> result B) (l : list A)
  : result (list B) :=
  match l with
  | [] => inr []
  | a :: l' => (b <~ f a ;; bs <~ map_result f l' ;; inr (b :: bs))%result
  end.

Section Agents.

(** [self.llm.invoke(messages)], reduced to the text of the answer. *)
Variable llm_invoke : world -> string -> string -> result string.

(** [self.tavily_client.search(query=..., ...)] *)
Variable tavily_search : world -> string -> result value.

(** [json.loads] *)
Variable json_loads : string -> result value.

(** [repr] of a float, a list or a dict. *)
Variable py_repr : value -> string.

(** [str(v)], which is also what an f-string field prints. *)
Definition py_str (v : value) : string :=
  match v with
  | VNone => "None"
  | VBool true => "True"
  | VBool false => "False"
  | VInt n => str_of_Z n
  | VStr s => s
  | _ => py_repr v
  end.

Definition call_llm (system human : string) : M string :=
  fun w => (llm_invoke w system human, (w ++ [LlmCall system human])%list).

Definition call_search (query : string) : M value :=
  fun w => (tavily_search w query, (w ++ [SearchCall query])%list).

(** The text both parsers hand to [json.loads]: the inside of the first
    code fence when there is one, the whole answer otherwise. *)
Definition fenced_json (response_content : string) : string :=
  if str_contains "```json" response_content then
    let json_start := str_find response_content "```json" 0 + 7 in
    let json_end := str_find response_content "```" json_start in
    strip (str_slice response_content json_start json_end)
  else if str_contains "```" response_content then
    let json_start := str_find response_content "```" 0 + 3 in
    let json_end := str_find response_content "```" json_start in
    strip (str_slice response_content json_start json_end)
  else strip response_content.

(** *** researcher_agent.py *)

Record researcher_config : Type := {
  word_limit : Z;
  researcher_instructions : string
}.

Definition format_search_result (r : value) : result string :=
  (title <~ py_get r "title" (VStr "N/A") ;;
   content <~ py_get r "content" (VStr "N/A") ;;
   url <~ py_get r "url" (VStr "N/A") ;;
   inr ("Title: " ++ py_str title ++ nl ++
        "Content: " ++ py_str content ++ nl ++
        "URL: " ++ py_str url ++ nl))%result.

Definition search_topic (topic : string) (focus_areas : value) : M string :=
  try_except
    (let query :=
       if py_truthy focus_areas
       then topic ++ " " ++ py_str focus_areas else topic in
     search_results <- call_search query ;;
     results <- lift (py_get search_results "results" (VList [])) ;;
     items <- lift (py_iter results) ;;
     formatted_results <- lift (map_result format_search_result items) ;;
     ret (join (nl ++ "---" ++ nl) formatted_results))%M
    (fun e => ret ("Search error: " ++ exn_str e)).

Definition research_prompt (cfg : researcher_config) (topic : string)
    (focus_instruction search_results : string) : string :=
  "Based on the following search results, create comprehensive research content about "
    ++ dq ++ topic ++ dq ++ "." ++ nl ++
  "            " ++ nl ++
  "Your research should be approximately " ++ str_of_Z (word_limit cfg)
    ++ " words and cover:" ++ nl ++
  "1. Core concepts and definitions" ++ nl ++
  "2. Technical details and mechanisms" ++ nl ++
  "3. Practical applications and use cases" ++ nl ++
  "4. Best practices and common pitfalls" ++ nl ++
  "5. Advanced considerations for intermediate users" ++ nl ++
  focus_instruction ++ nl ++ nl ++
  "Search Results:" ++ nl ++
  search_results ++ nl ++ nl ++
  "Provide well-structured, informative content that will serve as the foundation for an Instagram educational post.".

Definition researcher_research (cfg : researcher_config)
    (topic : string) (focus_areas : value) : M pydict :=
  (search_results <- search_topic topic focus_areas ;;
   let focus_instruction :=
     if py_truthy focus_areas
     then nl ++ nl ++ "Please pay special attention to: " ++ py_str focus_areas
     else EmptyString in
   research_content <-
     call_llm (researcher_instructions cfg)
              (research_prompt cfg topic focus_instruction search_results) ;;
   ret [("topic", VStr topic);
        ("research_content", VStr research_content);
        ("focus_areas", focus_areas);
        ("word_count", VInt (word_count research_content))])%M.

Definition mkResearcherAgent (cfg : researcher_config) : ResearcherAgent :=
  {| research := researcher_research cfg |}.

(** *** drafter_agent.py *)

Record drafter_config : Type := {
  max_slides : Z;
  drafter_instructions : string
}.

Definition draft_prompt (cfg : drafter_config) (research_data : pydict)
    (revision_note : string) : string :=
  "Create an engaging Instagram carousel post (maximum "
    ++ str_of_Z (max_slides cfg)
    ++ " slides) based on the following research." ++ nl ++ nl ++
  "Topic: " ++ py_str (dict_get research_data "topic" (VStr "N/A")) ++ nl ++ nl ++
  "Research Content:" ++ nl ++
  py_str (dict_get research_data "research_content" (VStr "N/A")) ++ nl ++
  revision_note ++ nl ++ nl ++
  "Requirements:" ++ nl ++
  "1. Maximum " ++ str_of_Z (max_slides cfg) ++ " slides" ++ nl ++
  "2. Start with a clear definition with key terms in **bold**" ++ nl ++
  "3. Provide genuine value to data science professionals with 2-3 years of experience" ++ nl ++
  "4. Include intermediate to advanced concepts (not just beginner content)" ++ nl ++
  "5. Use practical examples and simple formulas where appropriate" ++ nl ++
  "6. Be concise and avoid filler content" ++ nl ++
  "7. Each slide must have a clear purpose" ++ nl ++
  "8. Include @learningalgorithm on each slide" ++ nl ++
  "9. End with an engaging call-to-action" ++ nl ++ nl ++
  "Format your response as a valid JSON object with this structure:" ++ nl ++
  "{" ++ nl ++
  "  " ++ quoted "slides" ++ ": [" ++ nl ++
  "    {" ++ nl ++
  "      " ++ quoted "page_number" ++ ": 1," ++ nl ++
  "      " ++ quoted "title" ++ ": " ++ quoted "Title of the slide" ++ "," ++ nl ++
  "      " ++ quoted "content" ++ ": " ++ quoted "Main content of the slide" ++ "," ++ nl ++
  "      " ++ quoted "layout" ++ ": " ++ quoted "Description of visual layout" ++ nl ++
  "    }" ++ nl ++
  "  ]" ++ nl ++
  "}" ++ nl ++ nl ++
  "Ensure the JSON is valid and complete.".

(** The body of the [try] block of [draft_post]. *)
Definition draft_post_try (cfg : drafter_config) (research_data : pydict)
    (response_content : string) : result pydict :=
  (post_data <~ json_loads (fenced_json response_content) ;;
   has_slides <~ py_in "slides" post_data ;;
   if negb has_slides
   then throw ValueError "Response does not contain 'slides' key"
   else
     slides <~ py_getitem post_data "slides" ;;
     n <~ py_len slides ;;
     post_data <~
       (if n >? max_slides cfg
        then truncated <~ py_slice_to slides (max_slides cfg) ;;
             py_setitem post_data "slides" truncated
        else inr post_data) ;;
     slides <~ py_getitem post_data "slides" ;;
     n <~ py_len slides ;;
     inr [("topic", dict_get research_data "topic" VNone);
          ("post", post_data);
          ("slide_count", VInt n)])%result.

(** The fallback structure of the two [except] clauses; [content] is the
    text of its one slide. *)
Definition error_post (research_data : pydict) (content : string) (e : exn)
  : pydict :=
  [("topic", dict_get research_data "topic" VNone);
   ("post",
    VDict [("slides",
            VList [VDict [("page_number", VInt 1);
                          ("title", VStr "Error");
                          ("content", VStr content);
                          ("layout", VStr "Error message")]])]);
   ("slide_count", VInt 1);
   ("error", VStr (exn_str e))].

(** Everything [draft_post] does once the model has answered. *)
Definition draft_post_parse (cfg : drafter_config) (research_data : pydict)
    (response_content : string) : pydict :=
  match draft_post_try cfg research_data response_content with
  | inr post => post
  | inl e =>
      if is_json_decode_error e
      then error_post research_data
             ("Failed to generate post. Error: " ++ exn_str e) e
      else error_post research_data ("Unexpected error: " ++ exn_str e) e
  end.

(** [revision_note]: empty unless there is feedback to address. *)
Definition revision_note_of (revision_feedback : value) : string :=
  if py_truthy revision_feedback
  then nl ++ nl ++ "**IMPORTANT REVISION FEEDBACK:**" ++ nl
       ++ py_str revision_feedback ++ nl ++ nl
       ++ "Please address this feedback in your revised draft."
  else EmptyString.

Definition drafter_draft_post (cfg : drafter_config)
    (research_data : pydict) (revision_feedback : value) : M pydict :=
  (let revision_note := revision_note_of revision_feedback in
   response_content <-
     call_llm (drafter_instructions cfg)
              (draft_prompt cfg research_data revision_note) ;;
   ret (draft_post_parse cfg research_data response_content))%M.

Definition format_slide (slide : value) : result (list string) :=
  (page_number <~ py_get slide "page_number" (VStr "?") ;;
   title <~ py_get slide "title" (VStr "N/A") ;;
   content <~ py_get slide "content" (VStr "N/A") ;;
   layout <~ py_get slide "layout" (VStr "N/A") ;;
   inr [nl ++ "--- SLIDE " ++ py_str page_number ++ " ---";
        "Title: " ++ py_str title;
        nl ++ "Content:" ++ nl ++ py_str content;
        nl ++ "Layout: " ++ py_str layout;
        repeat_char "-" 60])%result.

Definition drafter_format_post_for_display (post_data : pydict)
  : result string :=
  match dict_lookup "post" post_data with
  | None => inr "No post data available"
  | Some post =>
      (let header :=
         [nl ++ repeat_char "=" 60;
          "INSTAGRAM POST: "
            ++ py_str (dict_get post_data "topic" (VStr "Unknown Topic"));
          "Total Slides: "
            ++ py_str (dict_get post_data "slide_count" (VInt 0));
          repeat_char "=" 60 ++ nl] in
       slides <~ py_get post "slides" (VList []) ;;
       items <~ py_iter slides ;;
       blocks <~ map_result format_slide items ;;
       inr (join nl (header ++ List.concat blocks)%list))%result
  end.

Definition mkDrafterAgent (cfg : drafter_config) : DrafterAgent :=
  {| draft_post := drafter_draft_post cfg;
     format_post_for_display := drafter_format_post_for_display |}.

End Agents.

(** *** editor_agent.py *)

Section Editor.

Variable llm_invoke : world -> string -> string -> result string.
Variable json_loads : string -> result value.
Variable py_repr : value -> string.

(** The agents the editor is constructed with. *)
Variable researcher_agent : ResearcherAgent.
Variable drafter_agent : DrafterAgent.

Variable editor_instructions : string.

Definition valid_decisions : list string :=
  ["approve"; "revise_research"; "revise_draft"].

(** [v in valid_decisions] *)
Definition is_valid_decision (v : value) : bool :=
  existsb (is_str v) valid_decisions.

Definition review_prompt (topic research_summary post_text : string)
  : string :=
  "Review the following Instagram post draft for quality and coherence." ++ nl ++ nl ++
  "Topic: " ++ topic ++ nl ++ nl ++
  "Research Summary (first 500 chars):" ++ nl ++
  research_summary ++ "..." ++ nl ++ nl ++
  "Post to Review:" ++ nl ++
  post_text ++ nl ++ nl ++
  "Evaluate the post based on:" ++ nl ++
  "1. Quality: Is the content valuable for data science professionals with 2-3 years experience?" ++ nl ++
  "2. Depth: Does it include intermediate or advanced elements (not just beginner content)?" ++ nl ++
  "3. Coherence: Do all slides work together to communicate a unified message?" ++ nl ++
  "4. Value: Is there genuine value with no filler content?" ++ nl ++
  "5. Structure: Does it start with a clear definition and build logically?" ++ nl ++ nl ++
  "Provide your response in the following JSON format:" ++ nl ++
  "{" ++ nl ++
  "  " ++ quoted "decision" ++ ": " ++ quoted "approve" ++ " or "
       ++ quoted "revise_research" ++ " or " ++ quoted "revise_draft" ++ "," ++ nl ++
  "  " ++ quoted "feedback" ++ ": "
       ++ quoted "Detailed feedback explaining your decision" ++ "," ++ nl ++
  "  " ++ quoted "specific_issues" ++ ": ["
       ++ quoted "List of specific issues if revisions needed" ++ "]," ++ nl ++
  "  " ++ quoted "suggestions" ++ ": ["
       ++ quoted "Specific suggestions for improvement" ++ "]" ++ nl ++
  "}" ++ nl ++ nl ++
  "If you decide " ++ quoted "revise_research"
    ++ ", include what additional information is needed." ++ nl ++
  "If you decide " ++ quoted "revise_draft"
    ++ ", include specific content improvements needed." ++ nl ++
  "Only " ++ quoted "approve" ++ " if the post meets premium quality standards.".

(** The body of the [try] block of [review_post]. *)
Definition review_post_try (response_content : string) : result pydict :=
  (review_result <~ json_loads (fenced_json response_content) ;;
   match review_result with
   | VDict d =>
       if negb (is_valid_decision (dict_get d "decision" VNone))
       then inr (dict_set d "decision" (VStr "revise_draft"))
       else inr d
   | _ => throw AttributeError "object has no attribute 'get'"
   end)%result.

(** Whether an answer parses to a [dict] whose ["decision"] is one of the
    three valid kinds. *)
Definition carries_valid_decision (response_content : string) : bool :=
  match json_loads (fenced_json response_content) with
  | inr (VDict d) => is_valid_decision (dict_get d "decision" VNone)
  | _ => false
  end.

(** Everything [review_post] does once the model has answered. *)
Definition review_post_parse (response_content : string) : pydict :=
  match review_post_try response_content with
  | inr review_result => review_result
  | inl e =>
      if is_json_decode_error e
      then [("decision", VStr "revise_draft");
            ("feedback",
             VStr "Failed to parse review. Please improve the post quality.");
            ("specific_issues", VList [VStr "Review parsing error"]);
            ("suggestions",
             VList [VStr "Ensure content meets quality standards"])]
      else [("decision", VStr "revise_draft");
            ("feedback", VStr ("Error during review: " ++ exn_str e));
            ("specific_issues", VList [VStr (exn_str e)]);
            ("suggestions", VList [])]
  end.

Definition editor_review_post (post_data research_data : pydict) : M pydict :=
  (post_text <- lift (format_post_for_display drafter_agent post_data) ;;
   let topic := py_str py_repr (dict_get post_data "topic" (VStr "Unknown")) in
   summary <-
     lift (py_slice_to
             (dict_get research_data "research_content" (VStr "N/A")) 500) ;;
   response_content <-
     call_llm llm_invoke editor_instructions
              (review_prompt topic (py_str py_repr summary) post_text) ;;
   ret (review_post_parse response_content))%M.

(** [" ".join(suggestions) if suggestions else feedback] *)
Definition focus_areas_of (suggestions feedback : value) : result value :=
  if py_truthy suggestions
  then (s <~ py_join " " suggestions ;; inr (VStr s))%result
  else inr feedback.

(** The feedback text followed by one bullet per suggestion. *)
Definition revision_feedback_of (feedback : value) (items : list value)
  : string :=
  py_str py_repr feedback ++ nl ++ nl ++ "Specific suggestions:" ++ nl
    ++ join nl (map (fun s => "- " ++ py_str py_repr s) items).

Definition editor_execute_action
    (review_decision research_data post_data : pydict) (topic : string)
  : M (pydict * pydict) :=
  let decision := dict_get review_decision "decision" VNone in
  let feedback := dict_get review_decision "feedback" (VStr EmptyString) in
  let suggestions := dict_get review_decision "suggestions" (VList []) in
  if is_str decision "approve" then
    ret (research_data, post_data)
  else if is_str decision "revise_research" then
    (focus_areas <- lift (focus_areas_of suggestions feedback) ;;
     updated_research <- research researcher_agent topic focus_areas ;;
     updated_post <- draft_post drafter_agent updated_research VNone ;;
     ret (updated_research, updated_post))%M
  else if is_str decision "revise_draft" then
    (items <- lift (py_iter suggestions) ;;
     let revision_feedback := revision_feedback_of feedback items in
     updated_post <-
       draft_post drafter_agent research_data (VStr revision_feedback) ;;
     ret (research_data, updated_post))%M
  else
    ret (research_data, post_data).

Definition mkEditorInChiefAgent : EditorInChiefAgent :=
  {| review_post := editor_review_post;
     execute_action := editor_execute_action |}.

End Editor.

(** ** workflow.py *)

Record WorkflowState : Type := mkState {
  topic : string;
  research_data : pydict;
  post_data : pydict;
  review_decision : pydict;
  iteration : Z;
  max_iterations : Z;
  messages : list (string * string);
  final_post : pydict
}.

Definition set_research_data (s : WorkflowState) (v : pydict) : WorkflowState :=
  mkState (topic s) v (post_data s) (review_decision s) (iteration s)
          (max_iterations s) (messages s) (final_post s).

Definition set_post_data (s : WorkflowState) (v : pydict) : WorkflowState :=
  mkState (topic s) (research_data s) v (review_decision s) (iteration s)
          (max_iterations s) (messages s) (final_post s).

Definition set_review_decision (s : WorkflowState) (v : pydict) : WorkflowState :=
  mkState (topic s) (research_data s) (post_data s) v (iteration s)
          (max_iterations s) (messages s) (final_post s).

Definition set_iteration (s : WorkflowState) (v : Z) : WorkflowState :=
  mkState (topic s) (research_data s) (post_data s) (review_decision s) v
          (max_iterations s) (messages s) (final_post s).

Definition set_final_post (s : WorkflowState) (v : pydict) : WorkflowState :=
  mkState (topic s) (research_data s) (post_data s) (review_decision s)
          (iteration s) (max_iterations s) (messages s) v.

(** [state["messages"].append({"role": "system", "content": content})]:
    what a node does to the list it was handed.  The field is declared
    [Annotated[list, add_messages]], so what the next node and the caller
    see is that list after the framework's [add_messages] reducer, which
    is not part of the repository: [messages] below holds the nodes' own
    entries, in order, and nothing is stated about the list a run
    returns.  No node reads the field. *)
Definition append_message (s : WorkflowState) (content : string) : WorkflowState :=
  mkState (topic s) (research_data s) (post_data s) (review_decision s)
          (iteration s) (max_iterations s)
          (messages s ++ [("system", content)])%list (final_post s).

(** The nodes added in [_build_graph]. *)
Inductive node : Type := Research | Draft | Review | Revise | Finalize.

(** What running a node adds to the review count. *)
Definition counts_as_review (n : node) : Z :=
  match n with Review => 1 | _ => 0 end.

(** The three answers of [review_decision_router]. *)
Inductive route : Type := approved | revise | max_iterations_reached.

(** What [run] returns. *)
Record run_result : Type := mkRunResult {
  result_final_post : pydict;
  result_iterations : Z;
  result_research_data : pydict;
  result_messages : list (string * string)
}.

(** How an invocation of the graph ends: it returns or it raises. *)
Inductive outcome (A : Type) : Type :=
| Done (a : A)
| Raised (e : exn).
Arguments Done {A} a.
Arguments Raised {A} e.

(** What the executor raises when it has used up its steps.  Its text is
    the framework's own and is left empty. *)
Definition graph_recursion_error : exn := mkExn GraphRecursionError EmptyString.

Section Workflow.

Variable py_repr : value -> string.

Variable researcher : ResearcherAgent.
Variable drafter : DrafterAgent.
Variable editor : EditorInChiefAgent.

(** [self.max_iterations] *)
Variable workflow_max_iterations : Z.

Definition research_node (state : WorkflowState) : M WorkflowState :=
  (research_data <- research researcher (topic state) VNone ;;
   let state := set_research_data state research_data in
   ret (append_message state
          ("Research completed for topic: " ++ topic state)))%M.

Definition draft_node (state : WorkflowState) : M WorkflowState :=
  (post_data <- draft_post drafter (research_data state) VNone ;;
   let state := set_post_data state post_data in
   ret (append_message state
          ("Draft completed with "
             ++ py_str py_repr (dict_get post_data "slide_count" (VInt 0))
             ++ " slides")))%M.

Definition review_node (state : WorkflowState) : M WorkflowState :=
  (let iteration := iteration state in
   review_decision <-
     review_post editor (post_data state) (research_data state) ;;
   let state := set_review_decision state review_decision in
   let state := set_iteration state (iteration + 1) in
   ret (append_message state
          ("Review completed. Decision: "
             ++ py_str py_repr (dict_get review_decision "decision" VNone))))%M.

Definition revise_node (state : WorkflowState) : M WorkflowState :=
  (let review_decision := review_decision state in
   '(updated_research, updated_post) <-
     execute_action editor review_decision (research_data state)
                    (post_data state) (topic state) ;;
   let state := set_research_data state updated_research in
   let state := set_post_data state updated_post in
   ret (append_message state
          ("Revision completed based on: "
             ++ py_str py_repr (dict_get review_decision "decision" VNone))))%M.

Definition finalize_node (state : WorkflowState) : WorkflowState :=
  let state := set_final_post state (post_data state) in
  append_message state "Post finalized and ready for publication".

Definition review_decision_router (state : WorkflowState) : route :=
  let decision :=
    dict_get (review_decision state) "decision" (VStr "revise_draft") in
  if iteration state >=? max_iterations state then max_iterations_reached
  else if is_str decision "approve" then approved
  else revise.

(** The mapping given to [add_conditional_edges]. *)
Definition review_edges (r : route) : node :=
  match r with
  | approved => Finalize
  | revise => Revise
  | max_iterations_reached => Finalize
  end.

Definition run_node (n : node) (state : WorkflowState) : M WorkflowState :=
  match n with
  | Research => research_node state
  | Draft => draft_node state
  | Review => review_node state
  | Revise => revise_node state
  | Finalize => ret (finalize_node state)
  end.

(** The edges of the graph; [None] is [END]. *)
Definition next_node (n : node) (state : WorkflowState) : option node :=
  match n with
  | Research => Some Draft
  | Draft => Some Review
  | Review => Some (review_edges (review_decision_router state))
  | Revise => Some Review
  | Finalize => None
  end.

(** [self.workflow.invoke]: run the node, follow its edge, until [END].
    The result carries the final state and the nodes run, in order.
    [fuel] is the number of nodes the executor runs before it gives up
    with [GraphRecursionError]: [run] passes no configuration to [invoke],
    so this number is the one the framework derives from its default
    recursion limit, and the repository does not set it. *)
Fixpoint invoke_from (fuel : nat) (n : node) (state : WorkflowState)
    (w : world) : outcome (WorkflowState * list node) * world :=
  match fuel with
  | O => (Raised graph_recursion_error, w)
  | S fuel' =>
      match run_node n state w with
      | (inl e, w') => (Raised e, w')
      | (inr state', w') =>
          match next_node n state' with
          | None => (Done (state', [n]), w')
          | Some n' =>
              match invoke_from fuel' n' state' w' with
              | (Done (final_state, path), w'') =>
                  (Done (final_state, n :: path), w'')
              | r => r
              end
          end
      end
  end.

Definition initial_state (topic : string) : WorkflowState :=
  mkState topic [] [] [] 0 workflow_max_iterations [] [].

Definition invoke (fuel : nat) (topic : string) (w : world)
  : outcome (WorkflowState * list node) * world :=
  invoke_from fuel Research (initial_state topic) w.

Definition run (fuel : nat) (topic : string) (w : world)
  : outcome run_result * world :=
  match invoke fuel topic w with
  | (Done (final_state, _), w') =>
      (Done (mkRunResult (final_post final_state) (iteration final_state)
                         (research_data final_state) (messages final_state)),
       w')
  | (Raised e, w') => (Raised e, w')
  end.

(** The number of times the review node ran. *)
Definition review_steps (path : list node) : nat :=
  List.length (filter (fun n => match n with Review => true | _ => false end)
                      path).

End Workflow.

(** ** The course of a run *)

Section Execution.

Variable py_repr : value -> string.
Variable researcher : ResearcherAgent.
Variable drafter : DrafterAgent.
Variable editor : EditorInChiefAgent.

(** [runs_to k n s w n' s' w']: started on node [n] with state [s] and call
    log [w], the graph has run [k] nodes, each of which returned, and is
    about to run node [n'] on state [s'] with call log [w']. *)
Inductive runs_to
  : nat -> node -> WorkflowState -> world ->
    node -> WorkflowState -> world -> Prop :=
| runs_to_here : forall n s w, runs_to 0 n s w n s w
| runs_to_next : forall k n s w s1 w1 n1 n' s' w',
    run_node py_repr researcher drafter editor n s w = (inr s1, w1) ->
    next_node n s1 = Some n1 ->
    runs_to k n1 s1 w1 n' s' w' ->
    runs_to (S k) n s w n' s' w'.

(** Every capability call made in the run that starts on [n], [s], [w]
    returns: no node the run comes to raises.  (A node raises exactly when
    the call it makes to its agent does.) *)
Definition calls_return (n : node) (s : WorkflowState) (w : world) : Prop :=
  forall k n' s' w' e w'',
    runs_to k n s w n' s' w' ->
    run_node py_repr researcher drafter editor n' s' w' <> (inl e, w'').

(** Every review made in the run that starts on [n], [s], [w] answers
    [revise_draft]. *)
Definition reviews_ask_for_draft (n : node) (s : WorkflowState) (w : world)
  : Prop :=
  forall k s' w' s'' w'',
    runs_to k n s w Review s' w' ->
    run_node py_repr researcher drafter editor Review s' w' = (inr s'', w'') ->
    dict_get (review_decision s'') "decision" VNone = VStr "revise_draft".

End Execution.

(** The nodes an invocation ran, when it reached [END]. *)
Definition path_of (r : outcome (WorkflowState * list node) * world)
  : option (list node) :=
  match r with
  | (Done (_, path), _) => Some path
  | _ => None
  end.

(** The exception an invocation let through, if any. *)
Definition raised_of {A : Type} (r : outcome A * world) : option exn :=
  match r with
  | (Raised e, _) => Some e
  | _ => None
  end.

(** ** The objects [main.py] builds: three agents sharing one model *)

Section Assembly.

Variable llm_invoke : world -> string -> string -> result string.
Variable tavily_search : world -> string -> result value.
Variable json_loads : string -> result value.
Variable py_repr : value -> string.

Variable researcher_cfg : researcher_config.
Variable drafter_cfg : drafter_config.
Variable editor_instructions : string.

Definition the_researcher : ResearcherAgent :=
  mkResearcherAgent llm_invoke tavily_search py_repr researcher_cfg.

Definition the_drafter : DrafterAgent :=
  mkDrafterAgent llm_invoke json_loads py_repr drafter_cfg.

Definition the_editor : EditorInChiefAgent :=
  mkEditorInChiefAgent llm_invoke json_loads py_repr
                       the_researcher the_drafter editor_instructions.

Definition the_workflow_run (max_iterations : Z) (fuel : nat)
    (topic : string) (w : world) : outcome run_result * world :=
  run py_repr the_researcher the_drafter the_editor max_iterations
      fuel topic w.

Definition the_workflow_invoke (max_iterations : Z) (fuel : nat)
    (topic : string) (w : world)
  : outcome (WorkflowState * list node) * world :=
  invoke py_repr the_researcher the_drafter the_editor max_iterations
         fuel topic w.

End Assembly.

(** ** Sample collaborators for the concrete runs *)

Module Samples.

(** A model whose call fails. *)
Definition llm_down : world -> string -> string -> result string :=
  fun _ _ _ => throw OtherException "connection error".

(** A model that answers every request with the same text. *)
Definition llm_says (text : string) : world -> string -> string -> result string :=
  fun _ _ _ => inr text.

(** A search client with no results. *)
Definition search_nothing : world -> string -> result value :=
  fun _ _ => inr (VDict [("results", VList [])]).

(** [{"decision": "maybe", "feedback": "tighten", "suggestions": ["a"]}] *)
Definition maybe_text : string :=
  "{" ++ quoted "decision" ++ ": " ++ quoted "maybe" ++ ", "
      ++ quoted "feedback" ++ ": " ++ quoted "tighten" ++ ", "
      ++ quoted "suggestions" ++ ": [" ++ quoted "a" ++ "]}".

Definition maybe_record : pydict :=
  [("decision", VStr "maybe"); ("feedback", VStr "tighten");
   ("suggestions", VList [VStr "a"])].

Definition revise_draft_record : pydict :=
  [("decision", VStr "revise_draft"); ("feedback", VStr "tighten");
   ("suggestions", VList [VStr "a"])].

(** [{"slides": [1]}] *)
Definition bad_slides_text : string :=
  "{" ++ quoted "slides" ++ ": [1]}".

(** [{"slides": ["a", "b", "c"]}] *)
Definition three_slides_text : string :=
  "{" ++ quoted "slides" ++ ": [" ++ quoted "a" ++ ", " ++ quoted "b"
      ++ ", " ++ quoted "c" ++ "]}".

(** [json.loads] at the texts the concrete runs use: the three documents
    above, and text that is not JSON, on which it raises. *)
Definition json_loads_sample (s : string) : result value :=
  if String.eqb s maybe_text then inr (VDict maybe_record)
  else if String.eqb s bad_slides_text
       then inr (VDict [("slides", VList [VInt 1])])
  else if String.eqb s three_slides_text
       then inr (VDict [("slides", VList [VStr "a"; VStr "b"; VStr "c"])])
  else throw JSONDecodeError "Expecting value: line 1 column 1 (char 0)".

(** [repr] is not reached by the concrete runs. *)
Definition repr_sample (v : value) : string := "<repr>".

Definition researcher_cfg : researcher_config :=
  {| word_limit := 2500; researcher_instructions := EmptyString |}.

Definition drafter_cfg (max_slides : Z) : drafter_config :=
  {| max_slides := max_slides; drafter_instructions := EmptyString |}.

Definition some_research : pydict :=
  [("topic", VStr "Random Forests");
   ("research_content", VStr "Bagging of decision trees.");
   ("focus_areas", VNone); ("word_count", VInt 4)].

Definition some_post : pydict :=
  [("topic", VStr "Random Forests");
   ("post", VDict [("slides", VList [])]);
   ("slide_count", VInt 0)].

(** Stand-ins for the three agents, in the manner of test doubles: they
    make no external call and never raise. *)
Definition stub_researcher : ResearcherAgent :=
  {| research := fun topic focus_areas =>
       ret [("topic", VStr topic); ("research_content", VStr "text");
            ("focus_areas", focus_areas); ("word_count", VInt 1)] |}.

Definition stub_drafter : DrafterAgent :=
  {| draft_post := fun research_data _ =>
       ret [("topic", dict_get research_data "topic" VNone);
            ("post", VDict [("slides", VList [])]);
            ("slide_count", VInt 0)];
     format_post_for_display := fun _ => inr "post" |}.

(** An editor that answers every review with the same decision kind and
    revises by handing back what it was given. *)
Definition stub_editor (decision : string) : EditorInChiefAgent :=
  {| review_post := fun _ _ =>
       ret [("decision", VStr decision); ("feedback", VStr EmptyString);
            ("suggestions", VList [])];
     execute_action := fun _ research_data post_data _ =>
       ret (research_data, post_data) |}.

End Samples.

(** ** Shapes used to state further properties *)

(** [k] rounds of a review followed by a revision. *)
Fixpoint revision_cycles (k : nat) : list node :=
  match k with
  | O => []
  | S k' => Review :: Revise :: revision_cycles k'
  end.

Definition is_dict (v : value) : bool :=
  match v with VDict _ => true | _ => false end.

(** A post the formatters can go through: it has no ["post"] entry, or
    that entry is a [dict] whose ["slides"] (an empty list when missing) can
    be iterated and yields only [dict]s. *)
Definition displayable (post_data : pydict) : bool :=
  match dict_lookup "post" post_data with
  | None => true
  | Some (VDict post) =>
      match py_iter (dict_get post "slides" (VList [])) with
      | inr items => forallb is_dict items
      | inl _ => false
      end
  | Some _ => false
  end.

(** ** utils.py *)

(** [s * n] *)
Fixpoint repeat_str (s : string) (n : nat) : string :=
  match n with
  | O => EmptyString
  | S n' => s ++ repeat_str s n'
  end.

Section Utils.

(** [repr] of a float, a list or a dict. *)
Variable py_repr : value -> string.

Definition utils_format_slide (slide : value) : result (list string) :=
  (page_number <~ py_get slide "page_number" (VStr "?") ;;
   title <~ py_get slide "title" (VStr "N/A") ;;
   content <~ py_get slide "content" (VStr "N/A") ;;
   layout <~ py_get slide "layout" (VStr "N/A") ;;
   inr [nl ++ repeat_str "─" 80;
        "📄 SLIDE " ++ py_str py_repr page_number;
        repeat_str "─" 80;
        nl ++ "🏷️  TITLE: " ++ py_str py_repr title ++ nl;
        "📝 CONTENT:" ++ nl ++ py_str py_repr content ++ nl;
        "🎨 LAYOUT: " ++ py_str py_repr layout;
        repeat_str "─" 80])%result.

(** [format_post_for_display] of [utils.py], the one [main] prints the
    final post with. *)
Definition utils_format_post_for_display (post_data : pydict)
  : result string :=
  match post_data with
  | [] => inr "No post data available"
  | _ =>
      match dict_lookup "post" post_data with
      | None => inr "No post data available"
      | Some post =>
          (let lines :=
             [nl ++ repeat_char "=" 80;
              "INSTAGRAM POST: "
                ++ py_str py_repr (dict_get post_data "topic" (VStr "Unknown"));
              "Total Slides: "
                ++ py_str py_repr (dict_get post_data "slide_count" (VInt 0));
              repeat_char "=" 80 ++ nl] in
           slides <~ py_get post "slides" (VList []) ;;
           items <~ py_iter slides ;;
           blocks <~ map_result utils_format_slide items ;;
           inr (join nl (lines ++ List.concat blocks)%list))%result
      end
  end.

End Utils.

(** ** style_vault_parser.py

    The regular-expression engine, [int] on text, [str.lower] and the
    reading of the vault file are outside the repository: they are
    parameters. *)

(** The attributes of a [<post>] tag: a [dict] from text to text. *)
Definition attrs : Type := list (string * string).

Fixpoint attrs_lookup (k : string) (d : attrs) : option string :=
  match d with
  | [] => None
  | (k', v) :: d' => if String.eqb k k' then Some v else attrs_lookup k d'
  end.

(** [d.get(k, default)] *)
Definition attrs_get (d : attrs) (k default : string) : string :=
  match attrs_lookup k d with Some v => v | None => default end.

(** [d[k] = v] *)
Fixpoint attrs_set (d : attrs) (k v : string) : attrs :=
  match d with
  | [] => [(k, v)]
  | (k', v') :: d' =>
      if String.eqb k k' then (k, v) :: d' else (k', v') :: attrs_set d' k v
  end.

(** A list comprehension with a condition that may raise. *)
Fixpoint filter_result {A : Type} (keep : A -> result bool) (l : list A)
  : result (list A) :=
  match l with
  | [] => inr []
  | a :: l' =>
      (b <~ keep a ;;
       rest <~ filter_result keep l' ;;
       inr (if b then a :: rest else rest))%result
  end.

(** The value an attribute has after the matches are stored in order:
    that of the last match for it. *)
Definition last_match (k : string) (matches : list (string * string))
  : option string :=
  fold_left (fun found m => if String.eqb k (fst m) then Some (snd m) else found)
            matches None.

Section StyleVault.

(** [re.finditer(pattern, text)] for a pattern with two groups: the two
    groups of each match, in order; the flag tells whether [re.DOTALL] is
    passed. *)
Variable re_finditer : string -> bool -> string -> list (string * string).

(** [re.search(pattern, text, re.DOTALL)] for a pattern with one group: the
    group of the first match. *)
Variable re_search : string -> string -> option string.

(** [re.sub(pattern, repl, text)] *)
Variable re_sub : string -> string -> string -> string.

(** [int(s)] on text; [None] when it raises [ValueError]. *)
Variable py_int : string -> option Z.

(** [s.lower()] *)
Variable py_lower : string -> string.

(** Opening the file and reading it whole. *)
Variable read_file : string -> result string.

(** [repr] of a float, a list or a dict. *)
Variable py_repr : value -> string.

Definition post_pattern : string := "<post\s+([^>]+)>(.*?)</post>".

Definition attr_pattern : string :=
  "(\w+)=[" ++ dq ++ "\'](.*?)[" ++ dq ++ "\']".

Definition slide_pattern : string :=
  "###\s+Slide\s+(\d+)(.*?)(?=###\s+Slide\s+\d+|$)".

Definition field_pattern (field_name : string) : string :=
  "\*\*" ++ field_name ++ ":\*\*\s*(.*?)(?=\*\*(?:Title|Content|Layout):|$)".

Definition _parse_attributes (attributes_str : string) : attrs :=
  fold_left (fun attributes m => attrs_set attributes (fst m) (snd m))
            (re_finditer attr_pattern false attributes_str) [].

Definition _extract_field (content field_name : string) : string :=
  match re_search (field_pattern field_name) content with
  | Some group => re_sub "\n{3,}" (nl ++ nl) (strip group)
  | None => EmptyString
  end.

(** One turn of the loop of [_parse_slides]. *)
Definition parse_slide (m : string * string) : result value :=
  match py_int (fst m) with
  | None => throw ValueError "invalid literal for int()"
  | Some slide_num =>
      let slide_content := strip (snd m) in
      let title := _extract_field slide_content "Title" in
      let slide_text := _extract_field slide_content "Content" in
      let layout := _extract_field slide_content "Layout" in
      inr (VDict [("page_number", VInt slide_num);
                  ("title", VStr title);
                  ("content", VStr slide_text);
                  ("layout", VStr layout)])
  end.

Definition _parse_slides (content : string) : result (list value) :=
  map_result parse_slide (re_finditer slide_pattern true content).

(** One turn of the loop of [_parse_posts]. *)
Definition parse_post (m : string * string) : result value :=
  (let attributes := _parse_attributes (fst m) in
   slides <~ _parse_slides (snd m) ;;
   let slide_count :=
     match attrs_lookup "slides" attributes with
     | Some text =>
         match py_int text with
         | Some n => n
         | None => Z.of_nat (List.length slides)
         end
     | None => Z.of_nat (List.length slides)
     end in
   inr (VDict [("id", VStr (attrs_get attributes "id" "unknown"));
               ("topic", VStr (attrs_get attributes "topic" "Unknown"));
               ("style", VStr (attrs_get attributes "style" "educational"));
               ("slide_count", VInt slide_count);
               ("slides", VList slides)]))%result.

Definition _parse_posts (content : string) : result (list value) :=
  map_result parse_post (re_finditer post_pattern true content).

(** Any failure, of the reading or of the parsing, gives the empty list. *)
Definition load_style_vault (vault_file : string) : list value :=
  match read_file vault_file with
  | inl _ => []
  | inr content =>
      match _parse_posts content with
      | inl _ => []
      | inr posts => posts
      end
  end.

Fixpoint first_with_id (posts : list value) (post_id : string)
  : result value :=
  match posts with
  | [] => inr VNone
  | post :: rest =>
      (id <~ py_getitem post "id" ;;
       if is_str id post_id then inr post else first_with_id rest post_id)%result
  end.

Definition get_post_by_id (vault_file post_id : string) : result value :=
  first_with_id (load_style_vault vault_file) post_id.

Definition get_posts_by_topic (vault_file topic : string)
  : result (list value) :=
  let posts := load_style_vault vault_file in
  let topic_lower := py_lower topic in
  filter_result
    (fun post =>
       (t <~ py_getitem post "topic" ;;
        match t with
        | VStr t => inr (str_contains topic_lower (py_lower t))
        | _ => throw AttributeError "object has no attribute 'lower'"
        end)%result)
    posts.

Definition get_posts_by_style (vault_file style : string)
  : result (list value) :=
  filter_result
    (fun post => (s <~ py_getitem post "style" ;; inr (is_str s style))%result)
    (load_style_vault vault_file).

Definition example_slide (slide : value) : result (list string) :=
  (page_number <~ py_getitem slide "page_number" ;;
   title <~ py_getitem slide "title" ;;
   content <~ py_getitem slide "content" ;;
   shown <~ py_slice_to content 100 ;;
   layout <~ py_getitem slide "layout" ;;
   inr ["Slide " ++ py_str py_repr page_number ++ ":";
        "  Title: " ++ py_str py_repr title;
        "  Content: " ++ py_str py_repr shown ++ "...";
        "  Layout: " ++ py_str py_repr layout;
        EmptyString])%result.

Definition format_post_as_example (post : value) : result string :=
  (topic <~ py_getitem post "topic" ;;
   style <~ py_getitem post "style" ;;
   slide_count <~ py_getitem post "slide_count" ;;
   slides <~ py_getitem post "slides" ;;
   items <~ py_iter slides ;;
   blocks <~ map_result example_slide items ;;
   let output :=
     ["Example Post: " ++ py_str py_repr topic;
      "Style: " ++ py_str py_repr style;
      "Number of Slides: " ++ py_str py_repr slide_count;
      nl ++ "---" ++ nl] in
   inr (join nl (List.app output (List.concat blocks))))%result.

Definition get_style_examples_for_prompt (vault_file : string) (limit : Z)
  : result string :=
  match load_style_vault vault_file with
  | [] => inr "No style examples available."
  | posts =>
      (blocks <~
         map_result
           (fun post =>
              example <~ format_post_as_example post ;;
              inr [example; nl ++ repeat_char "=" 50 ++ nl])
           (list_slice_to posts limit) ;;
       inr (join nl (("=== STYLE REFERENCE EXAMPLES ===" ++ nl)
                       :: List.concat blocks)))%result
  end.

End StyleVault.

(** A slide as [_parse_slides] makes it. *)
Definition is_vault_slide (v : value) : Prop :=
  exists page_number title content layout,
    v = VDict [("page_number", VInt page_number); ("title", VStr title);
               ("content", VStr content); ("layout", VStr layout)].

(** A post as [_parse_posts] makes it. *)
Definition is_vault_post (v : value) : Prop :=
  exists id topic style slide_count slides,
    v = VDict [("id", VStr id); ("topic", VStr topic); ("style", VStr style);
               ("slide_count", VInt slide_count); ("slides", VList slides)]
    /\ Forall is_vault_slide slides.

(** The identifier of a post, when it has one that is text. *)
Definition post_id_is (post_id : string) (post : value) : bool :=
  match post with
  | VDict d => match dict_lookup "id" d with
               | Some v => is_str v post_id
               | None => false
               end
  | _ => false
  end.

Definition post_style_is (style : string) (post : value) : bool :=
  match post with
  | VDict d => match dict_lookup "style" d with
               | Some v => is_str v style
               | None => false
               end
  | _ => false
  end.

Module MoreSamples.

(** A search client whose call fails. *)
Definition search_down : world -> string -> result value :=
  fun _ _ => throw OtherException "search unavailable".

Definition approve_record : pydict :=
  [("decision", VStr "approve"); ("feedback", VStr "good");
   ("suggestions", VList [])].

(** A research revision whose suggestions are numbers. *)
Definition numbered_suggestions_record : pydict :=
  [("decision", VStr "revise_research"); ("feedback", VStr "more");
   ("suggestions", VList [VInt 1; VInt 2])].

(** A post whose slides are numbers. *)
Definition numbered_slides_post : pydict :=
  [("topic", VStr "Random Forests");
   ("post", VDict [("slides", VList [VInt 1])]);
   ("slide_count", VInt 1)].

End MoreSamples.

(** A vault of one post with one slide, and what the regular-expression
    engine, [int] and the file system give on its texts. *)
Module VaultSamples.

(** [<post id="rf" style="s">### Slide 1 **Title:** T</post>] *)
Definition vault_text : string :=
  "<post id=" ++ quoted "rf" ++ " style=" ++ quoted "s"
    ++ ">### Slide 1 **Title:** T</post>".

Definition tag_text : string :=
  "id=" ++ quoted "rf" ++ " style=" ++ quoted "s".

Definition body_text : string := "### Slide 1 **Title:** T".

Definition re_finditer_sample (pattern : string) (dotall : bool)
    (text : string) : list (string * string) :=
  if String.eqb pattern post_pattern && String.eqb text vault_text
  then [(tag_text, body_text)]
  else if String.eqb pattern attr_pattern && String.eqb text tag_text
  then [("id", "rf"); ("style", "s")]
  else if String.eqb pattern slide_pattern && String.eqb text body_text
  then [("1", " **Title:** T")]
  else [].

Definition re_search_sample (pattern text : string) : option string :=
  if String.eqb pattern (field_pattern "Title")
     && String.eqb text "**Title:** T"
  then Some "T"
  else None.

(** None of the texts has three line breaks in a row. *)
Definition re_sub_sample (pattern repl text : string) : string := text.

Definition py_int_sample (s : string) : option Z :=
  if String.eqb s "1" then Some 1 else None.

(** Not reached by the concrete runs. *)
Definition py_lower_sample (s : string) : string := s.

Definition read_file_sample (file : string) : result string :=
  if String.eqb file "style_vault.md" then inr vault_text
  else throw OtherException "No such file or directory".

Definition the_post : value :=
  VDict [("id", VStr "rf"); ("topic", VStr "Unknown"); ("style", VStr "s");
         ("slide_count", VInt 1);
         ("slides",
          VList [VDict [("page_number", VInt 1); ("title", VStr "T");
                        ("content", VStr EmptyString);
                        ("layout", VStr EmptyString)]])].

End VaultSamples.

(** * Properties *)

(** ** Dictionaries and slices *)

Lemma dict_lookup_set_same (d : pydict) (k : string) (v : value) :
  dict_lookup k (dict_set d k v) = Some v.
Proof.
  induction d as [|[k' v'] d IH]; simpl.
  - now rewrite String.eqb_refl.
  - destruct (String.eqb k k') eqn:E; simpl.
    + now rewrite String.eqb_refl.
    + now rewrite E.
Qed.

Lemma dict_get_set_same (d : pydict) (k : string) (v default : value) :
  dict_get (dict_set d k v) k default = v.
Proof. unfold dict_get. now rewrite dict_lookup_set_same. Qed.

Lemma slice_bound_nonneg (len k : Z) :
  0 <= len -> 0 <= k -> slice_bound len k = Z.min k len.
Proof.
  intros Hlen Hk. unfold slice_bound.
  destruct (Z.ltb_spec k 0); [lia | reflexivity].
Qed.

Lemma substring_length_le (s : string) (n m : nat) :
  (String.length (String.substring n m s) <= m)%nat.
Proof.
  revert n m. induction s as [|c s IH]; intros n m.
  - destruct n, m; simpl; lia.
  - destruct n as [|n].
    + destruct m as [|m]; simpl; [lia|]. specialize (IH 0%nat m). lia.
    + simpl. apply IH.
Qed.

Lemma str_slice_to_length (s : string) (k : Z) :
  0 <= k -> strlen (str_slice s 0 k) <= k.
Proof.
  intros Hk. unfold str_slice, strlen.
  pose proof (substring_length_le s
    (Z.to_nat (slice_bound (Z.of_nat (String.length s)) 0))
    (Z.to_nat (slice_bound (Z.of_nat (String.length s)) k
               - slice_bound (Z.of_nat (String.length s)) 0))) as H.
  rewrite !slice_bound_nonneg in * by lia. lia.
Qed.

Lemma list_slice_to_nonneg {A : Type} (l : list A) (k : Z) :
  0 <= k -> list_slice_to l k = firstn (Z.to_nat k) l.
Proof.
  intros Hk. unfold list_slice_to. rewrite slice_bound_nonneg by lia.
  destruct (Z.le_ge_cases k (Z.of_nat (List.length l))).
  - now rewrite Z.min_l by lia.
  - rewrite Z.min_r by lia. rewrite Nat2Z.id.
    rewrite firstn_all. symmetry. apply firstn_all2. lia.
Qed.

Lemma list_slice_to_length {A : Type} (l : list A) (k : Z) :
  0 <= k -> Z.of_nat (List.length (list_slice_to l k)) <= k.
Proof.
  intros Hk. rewrite list_slice_to_nonneg by assumption.
  rewrite length_firstn. lia.
Qed.

(** ** The graph *)

(** Undo one [bind] in a hypothesis about a computation that returned. *)
Ltac unbind H :=
  unfold bind in H;
  match type of H with
  | context [match ?m ?w with _ => _ end] =>
      let r := fresh "r" in
      let w1 := fresh "w" in
      let E := fresh "E" in
      destruct (m w) as [[r|r] w1] eqn:E; [discriminate H|]
  end.

Section WorkflowFacts.

Variable py_repr : value -> string.
Variable researcher : ResearcherAgent.
Variable drafter : DrafterAgent.
Variable editor : EditorInChiefAgent.

Local Abbreviation wf_review_node := (review_node py_repr editor).
Local Abbreviation wf_revise_node := (revise_node py_repr editor).
Local Abbreviation wf_research_node := (research_node researcher).
Local Abbreviation wf_draft_node := (draft_node py_repr drafter).
Local Abbreviation wf_run_node := (run_node py_repr researcher drafter editor).
Local Abbreviation wf_invoke_from := (invoke_from py_repr researcher drafter editor).

Lemma review_node_returns s w s' w' :
  wf_review_node s w = (inr s', w') ->
  exists d,
    review_post editor (post_data s) (research_data s) w = (inr d, w')
    /\ review_decision s' = d
    /\ iteration s' = iteration s + 1
    /\ max_iterations s' = max_iterations s
    /\ post_data s' = post_data s
    /\ research_data s' = research_data s.
Proof.
  unfold review_node. intros H. unbind H.
  unfold ret in H. inversion H; subst; clear H.
  exists r. simpl. repeat split; auto.
Qed.

Lemma revise_node_returns s w s' w' :
  wf_revise_node s w = (inr s', w') ->
  iteration s' = iteration s
  /\ max_iterations s' = max_iterations s
  /\ review_decision s' = review_decision s
  /\ execute_action editor (review_decision s) (research_data s)
       (post_data s) (topic s) w
     = (inr (research_data s', post_data s'), w').
Proof.
  unfold revise_node. intros H. unbind H.
  destruct r as [updated_research updated_post].
  unfold ret in H. inversion H; subst; clear H. simpl. repeat split; auto.
Qed.

Lemma research_node_returns s w s' w' :
  wf_research_node s w = (inr s', w') ->
  iteration s' = iteration s /\ max_iterations s' = max_iterations s.
Proof.
  unfold research_node. intros H. unbind H.
  unfold ret in H. inversion H; subst; clear H. simpl. repeat split; auto.
Qed.

Lemma draft_node_returns s w s' w' :
  wf_draft_node s w = (inr s', w') ->
  iteration s' = iteration s /\ max_iterations s' = max_iterations s.
Proof.
  unfold draft_node. intros H. unbind H.
  unfold ret in H. inversion H; subst; clear H. simpl. repeat split; auto.
Qed.

Lemma run_node_iteration n s w s' w' :
  wf_run_node n s w = (inr s', w') ->
  iteration s' = iteration s + counts_as_review n.
Proof.
  destruct n; simpl; intros H.
  - apply research_node_returns in H. lia.
  - apply draft_node_returns in H. lia.
  - apply review_node_returns in H. destruct H as (d & _ & _ & Hi & _). lia.
  - apply revise_node_returns in H. lia.
  - unfold ret in H. inversion H; subst. simpl. lia.
Qed.

Lemma review_steps_cons n p :
  Z.of_nat (review_steps (n :: p))
  = counts_as_review n + Z.of_nat (review_steps p).
Proof.
  unfold review_steps.
  destruct n; cbn [filter counts_as_review List.length]; lia.
Qed.

Lemma invoke_from_iteration fuel :
  forall n s w s' p w',
    wf_invoke_from fuel n s w = (Done (s', p), w') ->
    iteration s' = iteration s + Z.of_nat (review_steps p).
Proof.
  induction fuel as [|fuel IH]; intros n s w s' p w' H; simpl in H.
  - discriminate.
  - destruct (wf_run_node n s w) as [[e|s1] w1] eqn:Hn; [discriminate|].
    apply run_node_iteration in Hn.
    destruct (next_node n s1) as [n'|] eqn:Hnext.
    + destruct (wf_invoke_from fuel n' s1 w1) as [[[sf pf]|e] w2] eqn:Hrec;
        inversion H; subst; clear H.
      apply IH in Hrec. rewrite review_steps_cons. lia.
    + inversion H; subst; clear H.
      destruct n; simpl in Hnext; try discriminate.
      unfold review_steps; simpl in *. lia.
Qed.

(** C2. Once the counter has reached the limit the router answers
    [max_iterations] whatever the decision is, the edge taken from the
    review node leads to [Finalize], and so the revise node is entered only
    while the counter is below the limit. *)
Theorem router_limit_takes_precedence (s : WorkflowState) :
  max_iterations s <= iteration s ->
  review_decision_router s = max_iterations_reached
  /\ next_node Review s = Some Finalize
  /\ (forall d, next_node Review (set_review_decision s d) = Some Finalize)
  /\ next_node Review s <> Some Revise.
Proof.
  intros H.
  assert (R : forall d,
             review_decision_router (set_review_decision s d)
             = max_iterations_reached).
  { intros d. unfold review_decision_router. simpl.
    destruct (Z.geb_spec (iteration s) (max_iterations s)); [reflexivity|lia]. }
  assert (R0 : review_decision_router s = max_iterations_reached).
  { unfold review_decision_router.
    destruct (Z.geb_spec (iteration s) (max_iterations s)); [reflexivity|lia]. }
  repeat split.
  - exact R0.
  - simpl. now rewrite R0.
  - intros d. simpl. now rewrite R.
  - simpl. rewrite R0. discriminate.
Qed.

(** C5. The review node adds exactly one to the counter, the revise node
    leaves it alone, and therefore an invocation that completes from any
    node and state ends with the counter advanced by the number of review
    steps it ran. *)
Theorem iteration_counts_review_steps :
  (forall s w s' w',
      wf_review_node s w = (inr s', w') -> iteration s' = iteration s + 1)
  /\ (forall s w s' w',
      wf_revise_node s w = (inr s', w') -> iteration s' = iteration s)
  /\ (forall fuel n s w s' p w',
      wf_invoke_from fuel n s w = (Done (s', p), w') ->
      iteration s' = iteration s + Z.of_nat (review_steps p)).
Proof.
  split; [|split].
  - intros s w s' w' H. apply review_node_returns in H.
    destruct H as (d & _ & _ & Hi & _). exact Hi.
  - intros s w s' w' H. apply revise_node_returns in H. tauto.
  - intros fuel. apply invoke_from_iteration.
Qed.

(** C7. Finalizing copies the current draft into [final_post] without
    looking at the decision or the counter, both routes that end the
    workflow lead to it, and finalizing again gives the same
    [final_post]. *)
Theorem finalize_copies_draft_idempotent (s : WorkflowState) :
  final_post (finalize_node s) = post_data s
  /\ final_post (finalize_node (finalize_node s))
     = final_post (finalize_node s)
  /\ review_edges approved = Finalize
  /\ review_edges max_iterations_reached = Finalize.
Proof. repeat split. Qed.

End WorkflowFacts.

(** ** Termination of the review loop *)

Section Termination.

Variable py_repr : value -> string.
Variable researcher : ResearcherAgent.
Variable drafter : DrafterAgent.
Variable editor : EditorInChiefAgent.
Variable limit : Z.

Local Abbreviation wf_run_node := (run_node py_repr researcher drafter editor).
Local Abbreviation wf_invoke_from :=
  (invoke_from py_repr researcher drafter editor).
Local Abbreviation wf_runs_to := (runs_to py_repr researcher drafter editor).
Local Abbreviation wf_calls_return :=
  (calls_return py_repr researcher drafter editor).
Local Abbreviation wf_reviews_ask :=
  (reviews_ask_for_draft py_repr researcher drafter editor).

Lemma invoke_from_step fuel n s w s1 w1 :
  wf_run_node n s w = (inr s1, w1) ->
  wf_invoke_from (S fuel) n s w
  = match next_node n s1 with
    | None => (Done (s1, [n]), w1)
    | Some n' =>
        match wf_invoke_from fuel n' s1 w1 with
        | (Done (final_state, path), w2) => (Done (final_state, n :: path), w2)
        | r => r
        end
    end.
Proof. intros H. simpl. rewrite H. reflexivity. Qed.

(** A node raises exactly what the call it makes to its agent raises;
    [finalize] makes no call and does not raise. *)
Lemma node_raises_with_its_call n s w e w' :
  wf_run_node n s w = (inl e, w') <->
  match n with
  | Research => research researcher (topic s) VNone w = (inl e, w')
  | Draft => draft_post drafter (research_data s) VNone w = (inl e, w')
  | Review =>
      review_post editor (post_data s) (research_data s) w = (inl e, w')
  | Revise =>
      execute_action editor (review_decision s) (research_data s)
                     (post_data s) (topic s) w = (inl e, w')
  | Finalize => False
  end.
Proof.
  destruct n; cbn [run_node];
    unfold research_node, draft_node, review_node, revise_node, bind, ret;
    try (match goal with
         | |- context [match ?c with _ => _ end] =>
             destruct c as [[e1|r] w1]
         end;
         try destruct r;
         split; intros H; try discriminate H;
         inversion H; subst; reflexivity).
  split; [discriminate|contradiction].
Qed.

(** A run whose calls return: its first node returns, and what follows is
    again a run whose calls return. *)
Lemma calls_return_step n s w :
  wf_calls_return n s w ->
  exists s1 w1,
    wf_run_node n s w = (inr s1, w1)
    /\ forall n1, next_node n s1 = Some n1 -> wf_calls_return n1 s1 w1.
Proof.
  intros H. destruct (wf_run_node n s w) as [[e|s1] w1] eqn:Hn.
  - exfalso. apply (H 0%nat n s w e w1); [constructor|exact Hn].
  - exists s1, w1. split; [reflexivity|].
    intros n1 Hnext k n' s' w' e w'' Hr.
    apply (H (S k)). eapply runs_to_next; eauto.
Qed.

Lemma reviews_ask_step n s w s1 w1 n1 :
  wf_reviews_ask n s w ->
  wf_run_node n s w = (inr s1, w1) ->
  next_node n s1 = Some n1 ->
  wf_reviews_ask n1 s1 w1.
Proof.
  intros H Hn Hnext k s' w' s'' w'' Hr.
  apply (H (S k)). eapply runs_to_next; eauto.
Qed.

Lemma decision_default_irrelevant (d : pydict) (k : string) :
  dict_get d "decision" VNone = VStr k ->
  dict_get d "decision" (VStr "revise_draft") = VStr k.
Proof.
  unfold dict_get. destruct (dict_lookup "decision" d); [auto|discriminate].
Qed.

(** From the review node, with [k] bounding the reviews the limit still
    allows and calls that return: the graph reaches [END] within [2 * k]
    nodes, through at least one and at most [k] reviews, and through
    exactly as many as the limit allows when no review approves. *)
Lemma review_loop (k : nat) :
  forall fuel s w,
    wf_calls_return Review s w ->
    Z.max 1 (max_iterations s - iteration s) <= Z.of_nat k ->
    (2 * k <= fuel)%nat ->
    exists s' p w',
      wf_invoke_from fuel Review s w = (Done (s', p), w')
      /\ (1 <= review_steps p <= k)%nat
      /\ List.length p = (2 * review_steps p)%nat
      /\ final_post s' = post_data s'
      /\ max_iterations s' = max_iterations s
      /\ (wf_reviews_ask Review s w ->
          Z.of_nat (review_steps p)
          = Z.max 1 (max_iterations s - iteration s)).
Proof.
  induction k as [|k IH]; intros fuel s w Hcalls Hk Hfuel; [lia|].
  destruct fuel as [|[|fuel]]; try lia.
  destruct (calls_return_step _ _ _ Hcalls) as (s1 & w1 & Hrev & Hnext1).
  rewrite (invoke_from_step _ Review _ _ _ _ Hrev).
  pose proof Hrev as Hrev0. cbn [run_node] in Hrev.
  apply (review_node_returns py_repr editor) in Hrev.
  destruct Hrev as (d & Hd & Hdec & Hit & Hmax & _).
  specialize (Hnext1 (review_edges (review_decision_router s1)) eq_refl).
  cbn [next_node].
  assert (Hfin : forall r,
    review_edges r = Finalize ->
    review_decision_router s1 = r ->
    (r = approved -> wf_reviews_ask Review s w -> False) ->
    (r = max_iterations_reached -> max_iterations s <= iteration s + 1) ->
    exists s' p w',
      match wf_invoke_from (S fuel) (review_edges r) s1 w1 with
      | (Done (final_state, path), w2) =>
          (Done (final_state, Review :: path), w2)
      | r0 => r0
      end = (Done (s', p), w')
      /\ (1 <= review_steps p <= S k)%nat
      /\ List.length p = (2 * review_steps p)%nat
      /\ final_post s' = post_data s'
      /\ max_iterations s' = max_iterations s
      /\ (wf_reviews_ask Review s w ->
          Z.of_nat (review_steps p)
          = Z.max 1 (max_iterations s - iteration s))).
  { intros r Hedge Hr Happ Hlim. rewrite Hedge.
    exists (finalize_node s1), [Review; Finalize], w1.
    split; [reflexivity|].
    split; [unfold review_steps; simpl; lia|].
    split; [reflexivity|].
    split; [reflexivity|].
    split; [simpl; exact Hmax|].
    intros Hask. unfold review_steps. simpl.
    destruct r; try discriminate.
    - exfalso. now apply Happ.
    - specialize (Hlim eq_refl). lia. }
  destruct (review_decision_router s1) eqn:Hroute.
  - (* approved *)
    apply (Hfin approved); auto; try discriminate.
    intros _ Hask.
    pose proof (Hask 0%nat s w s1 w1
                  (runs_to_here py_repr researcher drafter editor Review s w)
                  Hrev0) as Hrd.
    unfold review_decision_router in Hroute.
    destruct (iteration s1 >=? max_iterations s1); [discriminate|].
    rewrite (decision_default_irrelevant _ "revise_draft" Hrd) in Hroute.
    simpl in Hroute. discriminate.
  - (* revise *)
    cbn [review_edges] in *.
    assert (Hlt : iteration s1 < max_iterations s1).
    { unfold review_decision_router in Hroute.
      destruct (Z.geb_spec (iteration s1) (max_iterations s1));
        [discriminate|lia]. }
    destruct (calls_return_step _ _ _ Hnext1) as (s2 & w2 & Hrvs & Hnext2).
    rewrite (invoke_from_step _ Revise _ _ _ _ Hrvs).
    pose proof Hrvs as Hrvs0. cbn [run_node] in Hrvs.
    apply (revise_node_returns py_repr editor) in Hrvs.
    destruct Hrvs as (Hit2 & Hmax2 & _).
    specialize (Hnext2 Review eq_refl).
    cbn [next_node].
    destruct (IH fuel s2 w2 Hnext2)
      as (s' & p & w' & Hinv & Hcount & Hlen & Hfp & Hm & Hex); [lia|lia|].
    rewrite Hinv.
    exists s', (Review :: Revise :: p), w'.
    split; [reflexivity|].
    pose proof (review_steps_cons Review (Revise :: p)) as C1.
    pose proof (review_steps_cons Revise p) as C2.
    cbn [counts_as_review] in C1, C2.
    split; [lia|]. split; [cbn [List.length]; lia|].
    split; [exact Hfp|]. split; [congruence|].
    intros Hask.
    assert (Hask2 : wf_reviews_ask Review s2 w2).
    { eapply reviews_ask_step; [|exact Hrvs0|reflexivity].
      eapply reviews_ask_step; [exact Hask|exact Hrev0|].
      cbn [next_node]. now rewrite Hroute. }
    specialize (Hex Hask2). lia.
  - (* max_iterations *)
    apply (Hfin max_iterations_reached); auto; try discriminate.
    intros _.
    unfold review_decision_router in Hroute.
    destruct (Z.geb_spec (iteration s1) (max_iterations s1)); [lia|].
    destruct (is_str _ _); discriminate.
Qed.

(** The whole graph, from the entry point. *)
Lemma invoke_completes (topic : string) (w : world) (fuel : nat) :
  wf_calls_return Research (initial_state limit topic) w ->
  (2 * Z.to_nat (Z.max 1 limit) + 2 <= fuel)%nat ->
  exists s p w',
    invoke py_repr researcher drafter editor limit fuel topic w
    = (Done (s, Research :: Draft :: p), w')
    /\ (1 <= review_steps p <= Z.to_nat (Z.max 1 limit))%nat
    /\ List.length p = (2 * review_steps p)%nat
    /\ final_post s = post_data s
    /\ iteration s = Z.of_nat (review_steps p)
    /\ (wf_reviews_ask Research (initial_state limit topic) w ->
        Z.of_nat (review_steps p) = Z.max 1 limit).
Proof.
  intros Hcalls Hfuel. unfold invoke.
  destruct fuel as [|[|fuel]]; try lia.
  destruct (calls_return_step _ _ _ Hcalls) as (s1 & w1 & H1 & Hnext1).
  rewrite (invoke_from_step _ Research _ _ _ _ H1). cbn [next_node].
  pose proof H1 as H10. cbn [run_node] in H1.
  apply (research_node_returns researcher) in H1. destruct H1 as (Hi1 & Hm1).
  specialize (Hnext1 Draft eq_refl).
  destruct (calls_return_step _ _ _ Hnext1) as (s2 & w2 & H2 & Hnext2).
  rewrite (invoke_from_step _ Draft _ _ _ _ H2). cbn [next_node].
  pose proof H2 as H20. cbn [run_node] in H2.
  apply (draft_node_returns py_repr drafter) in H2. destruct H2 as (Hi2 & Hm2).
  specialize (Hnext2 Review eq_refl).
  simpl in Hi1, Hm1.
  destruct (review_loop (Z.to_nat (Z.max 1 limit)) fuel s2 w2 Hnext2)
    as (s' & p & w' & Hinv & Hcount & Hlen & Hfp & Hm & Hex); [lia|lia|].
  pose proof (invoke_from_iteration py_repr researcher drafter editor
                _ _ _ _ _ _ _ Hinv) as Hiter.
  rewrite Hinv. exists s', p, w'.
  split; [reflexivity|]. split; [exact Hcount|]. split; [exact Hlen|].
  split; [exact Hfp|]. split; [lia|].
  intros Hask.
  assert (Hask2 : wf_reviews_ask Review s2 w2).
  { eapply reviews_ask_step; [|exact H20|reflexivity].
    eapply reviews_ask_step; [exact Hask|exact H10|reflexivity]. }
  specialize (Hex Hask2). lia.
Qed.

(** More steps do not change a run that returned. *)
Lemma invoke_from_more_fuel fuel :
  forall n s w r w',
    wf_invoke_from fuel n s w = (Done r, w') ->
    forall fuel', (fuel <= fuel')%nat ->
    wf_invoke_from fuel' n s w = (Done r, w').
Proof.
  induction fuel as [|fuel IH]; intros n s w r w' H fuel' Hle; simpl in H.
  - discriminate.
  - destruct fuel' as [|fuel']; [lia|]. simpl.
    destruct (wf_run_node n s w) as [[e|s1] w1]; [discriminate|].
    destruct (next_node n s1) as [n1|]; [|exact H].
    destruct (wf_invoke_from fuel n1 s1 w1) as [[[sf pf]|e] w2] eqn:Hrec;
      inversion H; subst; clear H.
    rewrite (IH _ _ _ _ _ Hrec fuel') by lia. reflexivity.
Qed.

(** A run that returned ran no more nodes than it was allowed. *)
Lemma invoke_from_path_length fuel :
  forall n s w s' p w',
    wf_invoke_from fuel n s w = (Done (s', p), w') ->
    (List.length p <= fuel)%nat.
Proof.
  induction fuel as [|fuel IH]; intros n s w s' p w' H; simpl in H.
  - discriminate.
  - destruct (wf_run_node n s w) as [[e|s1] w1]; [discriminate|].
    destruct (next_node n s1) as [n1|].
    + destruct (wf_invoke_from fuel n1 s1 w1) as [[[sf pf]|e] w2] eqn:Hrec;
        inversion H; subst; clear H.
      apply IH in Hrec. simpl. lia.
    + inversion H; subst. simpl. lia.
Qed.

(** When the calls return, the only exception is the executor's own. *)
Lemma invoke_from_done_or_out_of_steps fuel :
  forall n s w,
    wf_calls_return n s w ->
    (exists r w', wf_invoke_from fuel n s w = (Done r, w'))
    \/ (exists w', wf_invoke_from fuel n s w = (Raised graph_recursion_error, w')).
Proof.
  induction fuel as [|fuel IH]; intros n s w Hcalls.
  - right. eexists. reflexivity.
  - destruct (calls_return_step _ _ _ Hcalls) as (s1 & w1 & Hn & Hnext).
    rewrite (invoke_from_step _ _ _ _ _ _ Hn).
    destruct (next_node n s1) as [n1|].
    + destruct (IH n1 s1 w1 (Hnext n1 eq_refl)) as [([sf pf] & w' & ->)|(w' & ->)].
      * left. eexists _, _. reflexivity.
      * right. eexists. reflexivity.
    + left. eexists _, _. reflexivity.
Qed.

(** An exception raised by a node the run comes to is what the invocation
    raises, if the executor has the steps to get there. *)
Lemma raise_propagates k n s w n' s' w' :
  wf_runs_to k n s w n' s' w' ->
  forall e w'' fuel,
    wf_run_node n' s' w' = (inl e, w'') ->
    (k < fuel)%nat ->
    wf_invoke_from fuel n s w = (Raised e, w'').
Proof.
  induction 1 as [n s w|k n s w s1 w1 n1 n' s' w' Hn Hnext Hr IH];
    intros e w'' fuel Hraise Hlt.
  - destruct fuel as [|fuel]; [lia|]. simpl. rewrite Hraise. reflexivity.
  - destruct fuel as [|fuel]; [lia|].
    rewrite (invoke_from_step _ _ _ _ _ _ Hn), Hnext.
    rewrite (IH e w'' fuel Hraise) by lia. reflexivity.
Qed.

(** Whatever an invocation raises is the executor's own exception or one
    raised by a node the run came to. *)
Lemma raised_has_a_source fuel :
  forall n s w e w',
    wf_invoke_from fuel n s w = (Raised e, w') ->
    e = graph_recursion_error
    \/ exists k n' s' w1,
        (k < fuel)%nat
        /\ wf_runs_to k n s w n' s' w1
        /\ wf_run_node n' s' w1 = (inl e, w').
Proof.
  induction fuel as [|fuel IH]; intros n s w e w' H; simpl in H.
  - inversion H; subst. now left.
  - destruct (wf_run_node n s w) as [[e1|s1] w1] eqn:Hn.
    + inversion H; subst. right. exists 0%nat, n, s, w.
      split; [lia|]. split; [constructor|exact Hn].
    + destruct (next_node n s1) as [n1|] eqn:Hnext; [|discriminate].
      destruct (wf_invoke_from fuel n1 s1 w1) as [[[sf pf]|e2] w2] eqn:Hrec;
        inversion H; subst; clear H.
      destruct (IH _ _ _ _ _ Hrec) as [->|(k & n' & s' & wk & Hk & Hr & Hraise)].
      * now left.
      * right. exists (S k), n', s', wk.
        split; [lia|]. split; [|exact Hraise].
        eapply runs_to_next; eauto.
Qed.

Lemma run_raised (fuel : nat) (topic : string) (w : world) e w' :
  run py_repr researcher drafter editor limit fuel topic w = (Raised e, w')
  <-> invoke py_repr researcher drafter editor limit fuel topic w
      = (Raised e, w').
Proof.
  unfold run.
  destruct (invoke py_repr researcher drafter editor limit fuel topic w)
    as [[[s p]|e1] w1]; split; intros H; inversion H; subst; reflexivity.
Qed.

(** With calls that return and reviews that never approve, too few steps
    end the run with the executor's exception. *)
Lemma invoke_out_of_steps (topic : string) (w : world) (fuel : nat) :
  wf_calls_return Research (initial_state limit topic) w ->
  wf_reviews_ask Research (initial_state limit topic) w ->
  (fuel < 2 * Z.to_nat (Z.max 1 limit) + 2)%nat ->
  exists w',
    invoke py_repr researcher drafter editor limit fuel topic w
    = (Raised graph_recursion_error, w').
Proof.
  intros Hcalls Hask Hlt.
  destruct (invoke_from_done_or_out_of_steps fuel _ _ _ Hcalls)
    as [([s p] & w' & Hdone)|Hout]; [|exact Hout].
  exfalso.
  destruct (invoke_completes topic w (2 * Z.to_nat (Z.max 1 limit) + 2)
              Hcalls (Nat.le_refl _))
    as (s0 & p0 & w0 & Hinv & _ & Hlen & _ & _ & Hex).
  specialize (Hex Hask).
  unfold invoke in Hinv.
  rewrite (invoke_from_more_fuel _ _ _ _ _ _ Hdone
             (2 * Z.to_nat (Z.max 1 limit) + 2)%nat) in Hinv by lia.
  inversion Hinv; subst.
  apply invoke_from_path_length in Hdone. simpl in Hdone. lia.
Qed.

(** C1 (as amended). Take a run in which every capability call made
    returns and every review made answers [revise_draft]. It needs
    [2 * max 1 limit + 2] nodes. If the executor allows that many, [run]
    returns after exactly [max 1 limit] review steps: [limit] of them for a
    limit of at least one, and one for a limit of zero or less, since the
    first review runs before the limit is ever looked at. If the executor
    allows fewer, [run] raises the executor's [GraphRecursionError]. *)
Theorem run_reviews_until_limit (topic : string) (w : world) (fuel : nat) :
  calls_return py_repr researcher drafter editor
               Research (initial_state limit topic) w ->
  reviews_ask_for_draft py_repr researcher drafter editor
                        Research (initial_state limit topic) w ->
  ((2 * Z.to_nat (Z.max 1 limit) + 2 <= fuel)%nat ->
   exists s p w' res,
     invoke py_repr researcher drafter editor limit fuel topic w
     = (Done (s, p), w')
     /\ run py_repr researcher drafter editor limit fuel topic w
        = (Done res, w')
     /\ review_steps p = Z.to_nat (Z.max 1 limit)
     /\ result_iterations res = Z.max 1 limit)
  /\ ((fuel < 2 * Z.to_nat (Z.max 1 limit) + 2)%nat ->
      exists e w',
        run py_repr researcher drafter editor limit fuel topic w
        = (Raised e, w')
        /\ exn_kind e = GraphRecursionError).
Proof.
  intros Hcalls Hask. split.
  - intros Hfuel.
    destruct (invoke_completes topic w fuel Hcalls Hfuel)
      as (s & p & w' & Hinv & _ & _ & _ & Hit & Hex).
    specialize (Hex Hask).
    exists s, (Research :: Draft :: p), w'.
    exists (mkRunResult (final_post s) (iteration s) (research_data s)
                        (messages s)).
    split; [exact Hinv|]. split; [unfold run; now rewrite Hinv|].
    split; [|simpl; lia].
    change (review_steps (Research :: Draft :: p)) with (review_steps p). lia.
  - intros Hlt.
    destruct (invoke_out_of_steps topic w fuel Hcalls Hask Hlt) as (w' & Hout).
    exists graph_recursion_error, w'. split; [|reflexivity].
    now apply run_raised.
Qed.

(** C3 (as amended). [run] catches nothing and adds nothing but the
    executor's step limit. If every capability call made in the run
    returns and the executor allows the [2 * max 1 limit + 2] nodes the
    longest run needs, [run] returns a record whose [final_post] is the
    draft held by the final state, after at most [max 1 limit] reviews; if
    the calls return and [run] raises all the same, the steps were too few
    and the exception is the executor's [GraphRecursionError]. An
    exception raised by a capability call the run comes to is raised by
    [run] to its caller, unchanged; and whatever [run] raises is either
    such an exception or the executor's own. *)
Theorem run_returns_or_lets_the_exception_through
    (topic : string) (w : world) (fuel : nat) :
  (calls_return py_repr researcher drafter editor
                Research (initial_state limit topic) w ->
   ((2 * Z.to_nat (Z.max 1 limit) + 2 <= fuel)%nat ->
    exists s p w' res,
      invoke py_repr researcher drafter editor limit fuel topic w
      = (Done (s, p), w')
      /\ run py_repr researcher drafter editor limit fuel topic w
         = (Done res, w')
      /\ result_final_post res = post_data s
      /\ result_iterations res = Z.of_nat (review_steps p)
      /\ (review_steps p <= Z.to_nat (Z.max 1 limit))%nat)
   /\ (forall e w',
          run py_repr researcher drafter editor limit fuel topic w
          = (Raised e, w') ->
          (fuel < 2 * Z.to_nat (Z.max 1 limit) + 2)%nat
          /\ exn_kind e = GraphRecursionError))
  /\ (forall k n s w1 e w2,
         runs_to py_repr researcher drafter editor
                 k Research (initial_state limit topic) w n s w1 ->
         run_node py_repr researcher drafter editor n s w1 = (inl e, w2) ->
         (k < fuel)%nat ->
         run py_repr researcher drafter editor limit fuel topic w
         = (Raised e, w2))
  /\ (forall e w',
         run py_repr researcher drafter editor limit fuel topic w
         = (Raised e, w') ->
         exn_kind e = GraphRecursionError
         \/ exists k n s w1,
             (k < fuel)%nat
             /\ runs_to py_repr researcher drafter editor
                        k Research (initial_state limit topic) w n s w1
             /\ run_node py_repr researcher drafter editor n s w1
                = (inl e, w')).
Proof.
  split; [|split].
  - intros Hcalls.
    assert (Hret : (2 * Z.to_nat (Z.max 1 limit) + 2 <= fuel)%nat ->
      exists s p w' res,
        invoke py_repr researcher drafter editor limit fuel topic w
        = (Done (s, p), w')
        /\ run py_repr researcher drafter editor limit fuel topic w
           = (Done res, w')
        /\ result_final_post res = post_data s
        /\ result_iterations res = Z.of_nat (review_steps p)
        /\ (review_steps p <= Z.to_nat (Z.max 1 limit))%nat).
    { intros Hfuel.
      destruct (invoke_completes topic w fuel Hcalls Hfuel)
        as (s & p & w' & Hinv & Hcount & _ & Hfp & Hit & _).
      exists s, (Research :: Draft :: p), w'.
      exists (mkRunResult (final_post s) (iteration s) (research_data s)
                          (messages s)).
      change (review_steps (Research :: Draft :: p)) with (review_steps p).
      split; [exact Hinv|]. split; [unfold run; now rewrite Hinv|].
      split; [exact Hfp|]. split; [exact Hit|]. lia. }
    split; [exact Hret|].
    intros e w' Hraise. split.
    + destruct (Nat.lt_ge_cases fuel (2 * Z.to_nat (Z.max 1 limit) + 2))
        as [Hlt|Hge]; [exact Hlt|].
      destruct (Hret Hge) as (s & p & w1 & res & _ & Hrun & _).
      rewrite Hrun in Hraise. discriminate.
    + apply run_raised in Hraise. unfold invoke in Hraise.
      destruct (invoke_from_done_or_out_of_steps fuel _ _ _ Hcalls)
        as [(r & w1 & Hdone)|(w1 & Hout)].
      * rewrite Hdone in Hraise. discriminate.
      * rewrite Hout in Hraise. inversion Hraise; subst. reflexivity.
  - intros k n s w1 e w2 Hr Hraise Hlt. apply run_raised. unfold invoke.
    exact (raise_propagates _ _ _ _ _ _ _ Hr e w2 fuel Hraise Hlt).
  - intros e w' Hraise. apply run_raised in Hraise. unfold invoke in Hraise.
    destruct (raised_has_a_source _ _ _ _ _ _ Hraise) as [->|Hsrc].
    + left. reflexivity.
    + right. exact Hsrc.
Qed.

End Termination.

(** ** The editor *)

Section EditorFacts.

Variable llm_invoke : world -> string -> string -> result string.
Variable json_loads : string -> result value.
Variable py_repr : value -> string.
Variable researcher_agent : ResearcherAgent.
Variable drafter_agent : DrafterAgent.
Variable editor_instructions : string.

Local Abbreviation ed_review_post_parse := (review_post_parse json_loads).
Local Abbreviation ed_carries_valid_decision :=
  (carries_valid_decision json_loads).
Local Abbreviation editor :=
  (mkEditorInChiefAgent llm_invoke json_loads py_repr
                        researcher_agent drafter_agent editor_instructions).
Local Abbreviation ed_editor_execute_action :=
  (editor_execute_action py_repr researcher_agent drafter_agent).

Lemma review_post_parse_keeps (response_content : string) (parsed : pydict) :
  json_loads (fenced_json response_content) = inr (VDict parsed) ->
  is_valid_decision (dict_get parsed "decision" VNone) = true ->
  ed_review_post_parse response_content = parsed.
Proof.
  intros Hload Hvalid.
  unfold review_post_parse, review_post_try.
  rewrite Hload, Hvalid. reflexivity.
Qed.

Lemma review_post_parse_coerces (response_content : string) :
  ed_carries_valid_decision response_content = false ->
  dict_get (ed_review_post_parse response_content) "decision" VNone
  = VStr "revise_draft".
Proof.
  unfold carries_valid_decision, review_post_parse,
    review_post_try.
  destruct (json_loads (fenced_json response_content)) as [e|v].
  - intros _. destruct (is_json_decode_error e); reflexivity.
  - destruct v; try (intros _; reflexivity).
    intros Hinvalid. rewrite Hinvalid. cbn [negb].
    apply dict_get_set_same.
Qed.

Lemma review_post_parse_valid (response_content : string) :
  is_valid_decision
    (dict_get (ed_review_post_parse response_content) "decision" VNone) = true.
Proof.
  destruct (ed_carries_valid_decision response_content) eqn:Hc.
  - unfold carries_valid_decision in Hc.
    destruct (json_loads (fenced_json response_content)) as [e|v] eqn:Hload;
      [discriminate|].
    destruct v; try discriminate.
    now rewrite (review_post_parse_keeps _ _ Hload Hc).
  - now rewrite review_post_parse_coerces.
Qed.

(** C4. Whenever the model answers a review request, the review step
    returns and stores a decision record whose kind is one of the three
    valid ones; and if the answer did not carry one of them (its kind is
    something else or missing, it parsed to something that is not a
    record, or it did not parse at all) the stored kind is
    [revise_draft]. A valid record is stored as it came. *)
Theorem review_stores_normalized_decision
    (s : WorkflowState) (w : world)
    (post_text : string) (summary : value) (response_content : string) :
  format_post_for_display drafter_agent (post_data s) = inr post_text ->
  py_slice_to (dict_get (research_data s) "research_content" (VStr "N/A")) 500
  = inr summary ->
  llm_invoke w editor_instructions
    (review_prompt
       (py_str py_repr (dict_get (post_data s) "topic" (VStr "Unknown")))
       (py_str py_repr summary) post_text)
  = inr response_content ->
  exists s' w',
    review_node py_repr editor s w = (inr s', w')
    /\ is_valid_decision (dict_get (review_decision s') "decision" VNone)
       = true
    /\ (ed_carries_valid_decision response_content = false ->
        dict_get (review_decision s') "decision" VNone = VStr "revise_draft")
    /\ (forall parsed,
           json_loads (fenced_json response_content) = inr (VDict parsed) ->
           is_valid_decision (dict_get parsed "decision" VNone) = true ->
           review_decision s' = parsed).
Proof.
  intros Hfmt Hsum Hllm.
  unfold review_node, bind; cbn [review_post editor].
  unfold editor_review_post, bind, lift, call_llm.
  rewrite Hfmt, Hsum, Hllm. unfold ret.
  eexists _, _. split; [reflexivity|]. cbn [review_decision
    set_review_decision set_iteration append_message].
  split; [apply review_post_parse_valid|].
  split; [apply review_post_parse_coerces|].
  apply review_post_parse_keeps.
Qed.

(** C6. On [revise_draft] the dispatch hands back the research it was
    given and the draft the drafter makes from that same research and the
    feedback; on [revise_research] it hands back the research the
    researcher makes anew and the draft the drafter makes from that new
    research. In both cases it returns as soon as the calls it makes
    do. *)
Theorem execute_action_revision_isolation
    (d r p : pydict) (topic : string) (w : world) :
  let feedback := dict_get d "feedback" (VStr EmptyString) in
  let suggestions := dict_get d "suggestions" (VList []) in
  (dict_get d "decision" VNone = VStr "revise_draft" ->
   (forall r' p' w',
       ed_editor_execute_action d r p topic w = (inr (r', p'), w') ->
       r' = r
       /\ exists items,
           py_iter suggestions = inr items
           /\ draft_post drafter_agent r
                (VStr (revision_feedback_of py_repr feedback items)) w
              = (inr p', w'))
   /\ (forall items p' w',
       py_iter suggestions = inr items ->
       draft_post drafter_agent r
         (VStr (revision_feedback_of py_repr feedback items)) w
       = (inr p', w') ->
       ed_editor_execute_action d r p topic w = (inr (r, p'), w')))
  /\
  (dict_get d "decision" VNone = VStr "revise_research" ->
   (forall r' p' w',
       ed_editor_execute_action d r p topic w = (inr (r', p'), w') ->
       exists focus w1,
         focus_areas_of suggestions feedback = inr focus
         /\ research researcher_agent topic focus w = (inr r', w1)
         /\ draft_post drafter_agent r' VNone w1 = (inr p', w'))
   /\ (forall focus r' w1 p' w',
       focus_areas_of suggestions feedback = inr focus ->
       research researcher_agent topic focus w = (inr r', w1) ->
       draft_post drafter_agent r' VNone w1 = (inr p', w') ->
       ed_editor_execute_action d r p topic w = (inr (r', p'), w'))).
Proof.
  intros feedback suggestions. split; intros Hdec.
  - unfold editor_execute_action. rewrite Hdec. cbn [is_str].
    change (String.eqb "revise_draft" "approve") with false.
    change (String.eqb "revise_draft" "revise_research") with false.
    change (String.eqb "revise_draft" "revise_draft") with true.
    cbv iota. fold feedback suggestions. unfold bind, lift, ret. split.
    + intros r' p' w' H.
      destruct (py_iter suggestions) as [e|items]; [discriminate|].
      destruct (draft_post drafter_agent r _ w) as [[e|p1] w1] eqn:Hd;
        [discriminate|].
      inversion H; subst. split; [reflexivity|].
      exists items. split; [reflexivity|exact Hd].
    + intros items p' w' Hit Hd. rewrite Hit, Hd. reflexivity.
  - unfold editor_execute_action. rewrite Hdec. cbn [is_str].
    change (String.eqb "revise_research" "approve") with false.
    change (String.eqb "revise_research" "revise_research") with true.
    cbv iota. fold feedback suggestions. unfold bind, lift, ret. split.
    + intros r' p' w' H.
      destruct (focus_areas_of suggestions feedback) as [e|focus];
        [discriminate|].
      destruct (research researcher_agent topic focus w)
        as [[e|r1] w1] eqn:Hr; [discriminate|].
      destruct (draft_post drafter_agent r1 VNone w1)
        as [[e|p1] w2] eqn:Hd; [discriminate|].
      inversion H; subst. exists focus, w1. auto.
    + intros focus r' w1 p' w' Hf Hr Hd. rewrite Hf, Hr, Hd. reflexivity.
Qed.

(** C9 (as amended). A record whose kind is ["maybe"] makes the
    dispatch do nothing: no capability is called and both artifacts come
    back as they were. It is the review step that turns an answer of kind
    ["maybe"] into a [revise_draft] record before any dispatch. *)
Theorem maybe_is_noop_in_dispatch_and_coerced_at_review :
  (forall (d r p : pydict) (topic : string) (w : world),
      dict_get d "decision" VNone = VStr "maybe" ->
      ed_editor_execute_action d r p topic w = (inr (r, p), w))
  /\ (forall (response_content : string) (parsed : pydict),
      json_loads (fenced_json response_content) = inr (VDict parsed) ->
      dict_get parsed "decision" VNone = VStr "maybe" ->
      ed_review_post_parse response_content
      = dict_set parsed "decision" (VStr "revise_draft")
      /\ dict_get (ed_review_post_parse response_content) "decision" VNone
         = VStr "revise_draft").
Proof.
  split.
  - intros d r p topic w Hdec.
    unfold editor_execute_action. rewrite Hdec. reflexivity.
  - intros response_content parsed Hload Hdec.
    assert (E : ed_review_post_parse response_content
                = dict_set parsed "decision" (VStr "revise_draft")).
    { unfold review_post_parse, review_post_try.
      rewrite Hload, Hdec. reflexivity. }
    split; [exact E|]. rewrite E. apply dict_get_set_same.
Qed.

End EditorFacts.

(** ** The drafter *)

Section DrafterFacts.

Variable llm_invoke : world -> string -> string -> result string.
Variable json_loads : string -> result value.
Variable py_repr : value -> string.
Variable cfg : drafter_config.

Local Abbreviation dr_draft_post_try := (draft_post_try json_loads cfg).
Local Abbreviation dr_draft_post_parse := (draft_post_parse json_loads cfg).
Local Abbreviation dr_drafter_draft_post :=
  (drafter_draft_post llm_invoke json_loads py_repr cfg).

Lemma py_slice_to_len (v truncated : value) (k : Z) :
  0 <= k ->
  py_slice_to v k = inr truncated ->
  exists n, py_len truncated = inr n /\ n <= k.
Proof.
  intros Hk. destruct v; simpl; try discriminate; intros H;
    inversion H; subst; clear H; simpl; eexists; split; try reflexivity.
  - now apply str_slice_to_length.
  - now apply list_slice_to_length.
Qed.

(** What the [try] block returns when it returns. *)
Lemma draft_post_try_returns (research_data : pydict)
    (response_content : string) (post : pydict) :
  dr_draft_post_try research_data response_content = inr post ->
  exists post_data slides n,
    post = [("topic", dict_get research_data "topic" VNone);
            ("post", post_data);
            ("slide_count", VInt n)]
    /\ py_getitem post_data "slides" = inr slides
    /\ py_len slides = inr n
    /\ (0 <= max_slides cfg -> n <= max_slides cfg)
    /\ (forall parsed l,
           0 <= max_slides cfg ->
           json_loads (fenced_json response_content) = inr (VDict parsed) ->
           dict_lookup "slides" parsed = Some (VList l) ->
           slides = VList (firstn (Z.to_nat (max_slides cfg)) l)).
Proof.
  unfold draft_post_try.
  destruct (json_loads (fenced_json response_content)) as [e|pd] eqn:Hload;
    [discriminate|].
  destruct (py_in "slides" pd) as [e|has]; [discriminate|].
  destruct has; cbn [negb]; [|discriminate].
  destruct (py_getitem pd "slides") as [e|slides] eqn:Hget; [discriminate|].
  destruct (py_len slides) as [e|n] eqn:Hlen; [discriminate|].
  destruct (Z.gtb_spec n (max_slides cfg)) as [Hgt|Hle].
  - (* too many: truncate *)
    destruct (py_slice_to slides (max_slides cfg)) as [e|truncated] eqn:Hsl;
      [discriminate|].
    destruct pd; try discriminate. cbn [py_setitem py_getitem].
    rewrite dict_lookup_set_same.
    destruct (py_len truncated) as [e|n'] eqn:Hlen'; [discriminate|].
    intros H; inversion H; subst; clear H.
    eexists _, truncated, n'. split; [reflexivity|].
    split; [cbn [py_getitem]; now rewrite dict_lookup_set_same|].
    split; [exact Hlen'|]. split.
    + intros Hk. destruct (py_slice_to_len _ _ _ Hk Hsl) as (m & Hm & Hmk).
      congruence.
    + intros parsed l Hk Hp Hl. inversion Hp; subst; clear Hp.
      cbn [py_getitem] in Hget. rewrite Hl in Hget.
      inversion Hget; subst; clear Hget.
      cbn [py_slice_to] in Hsl. inversion Hsl; subst.
      now rewrite list_slice_to_nonneg.
  - (* few enough: kept *)
    rewrite Hget, Hlen.
    intros H; inversion H; subst; clear H.
    exists pd, slides, n. split; [reflexivity|].
    split; [exact Hget|]. split; [exact Hlen|]. split; [intros _; lia|].
    intros parsed l Hk Hp Hl. inversion Hp; subst; clear Hp.
    cbn [py_getitem] in Hget. rewrite Hl in Hget.
    inversion Hget; subst; clear Hget.
    cbn [py_len] in Hlen. inversion Hlen; subst.
    symmetry. f_equal. apply firstn_all2. lia.
Qed.

Lemma draft_post_try_parse_error (research_data : pydict)
    (response_content : string) (e : exn) :
  json_loads (fenced_json response_content) = inl e ->
  dr_draft_post_try research_data response_content = inl e.
Proof. intros H. unfold draft_post_try. now rewrite H. Qed.

(** C8 (as amended). Whenever the model answers and the answer cannot
    be turned into a post (it does not parse, or parsing or validating it
    raises anything else), [draft_post] returns a post that holds exactly
    one slide, titled [Error], with a slide count of one and the error
    text. An answer that does not parse is such a case. *)
Theorem draft_post_failure_gives_error_post
    (research_data : pydict) (revision_feedback : value) (w : world)
    (response_content : string) (e : exn) :
  llm_invoke w (drafter_instructions cfg)
    (draft_prompt py_repr cfg research_data
       (revision_note_of py_repr revision_feedback))
  = inr response_content ->
  dr_draft_post_try research_data response_content = inl e
  \/ json_loads (fenced_json response_content) = inl e ->
  exists post w' content,
    dr_drafter_draft_post research_data revision_feedback w = (inr post, w')
    /\ dict_lookup "post" post
       = Some (VDict [("slides",
                       VList [VDict [("page_number", VInt 1);
                                     ("title", VStr "Error");
                                     ("content", VStr content);
                                     ("layout", VStr "Error message")]])])
    /\ dict_lookup "slide_count" post = Some (VInt 1)
    /\ dict_lookup "error" post = Some (VStr (exn_str e)).
Proof.
  intros Hllm Hfail.
  assert (Htry : dr_draft_post_try research_data response_content = inl e).
  { destruct Hfail as [H|H]; [exact H|].
    now apply draft_post_try_parse_error. }
  unfold drafter_draft_post, bind, call_llm, ret.
  rewrite Hllm. unfold draft_post_parse. rewrite Htry.
  destruct (is_json_decode_error e);
    eexists _, _, _; (split; [reflexivity|]); repeat split.
Qed.

(** C10. Whenever the model answers, and for a limit of slides that is
    not negative: the post [draft_post] returns reports as its slide count
    the length of the slides it holds, on the parsed path and on the
    fallback path alike; on the parsed path that length is at most
    [max_slides], and a parsed list of slides comes back cut to its first
    [max_slides]. *)
Theorem draft_post_slide_count_and_bound
    (research_data : pydict) (revision_feedback : value) (w : world)
    (response_content : string) :
  0 <= max_slides cfg ->
  llm_invoke w (drafter_instructions cfg)
    (draft_prompt py_repr cfg research_data
       (revision_note_of py_repr revision_feedback))
  = inr response_content ->
  exists post w' post_data slides n,
    dr_drafter_draft_post research_data revision_feedback w = (inr post, w')
    /\ dict_lookup "post" post = Some post_data
    /\ py_getitem post_data "slides" = inr slides
    /\ py_len slides = inr n
    /\ dict_lookup "slide_count" post = Some (VInt n)
    /\ (dict_has "error" post = false -> n <= max_slides cfg)
    /\ (forall parsed l,
           json_loads (fenced_json response_content) = inr (VDict parsed) ->
           dict_lookup "slides" parsed = Some (VList l) ->
           dict_has "error" post = false
           /\ slides = VList (firstn (Z.to_nat (max_slides cfg)) l)).
Proof.
  intros Hk Hllm.
  unfold drafter_draft_post, bind, call_llm, ret.
  rewrite Hllm. unfold draft_post_parse.
  destruct (dr_draft_post_try research_data response_content)
    as [e|post] eqn:Htry.
  - (* fallback path *)
    assert (Hnot : forall parsed l,
               json_loads (fenced_json response_content) = inr (VDict parsed) ->
               dict_lookup "slides" parsed = Some (VList l) -> False).
    { intros parsed l Hp Hl. unfold draft_post_try in Htry.
      rewrite Hp in Htry. cbn [py_in py_getitem] in Htry.
      unfold dict_has in Htry. rewrite Hl in Htry.
      cbn [negb py_len] in Htry.
      destruct (Z.of_nat (List.length l) >? max_slides cfg);
        cbn [py_slice_to py_setitem py_getitem py_len] in Htry;
        try rewrite dict_lookup_set_same in Htry;
        try rewrite Hl in Htry; discriminate. }
    destruct (is_json_decode_error e);
      eexists _, _, _, _, 1; (split; [reflexivity|]);
      (split; [reflexivity|]); (split; [reflexivity|]);
      (split; [reflexivity|]); (split; [reflexivity|]);
      (split; [discriminate|]);
      intros parsed l Hp Hl; exfalso; eapply Hnot; eauto.
  - (* parsed path *)
    destruct (draft_post_try_returns _ _ _ Htry)
      as (pd & slides & n & Hpost & Hget & Hlen & Hbound & Hcut).
    subst post. eexists _, _, pd, slides, n.
    split; [reflexivity|]. split; [reflexivity|].
    split; [exact Hget|]. split; [exact Hlen|]. split; [reflexivity|].
    split; [intros _; now apply Hbound|].
    intros parsed l Hp Hl. split; [reflexivity|]. now apply (Hcut parsed l).
Qed.

End DrafterFacts.

(** ** Concrete runs *)

Section Runs.

Import Samples.

(** The agents of [main.py] around a model that answers every request
    with [text]. *)
Local Abbreviation invoke_with text limit :=
  (the_workflow_invoke (llm_says text) search_nothing json_loads_sample
     repr_sample researcher_cfg (drafter_cfg 10) EmptyString limit 30
     "Random Forests" []).

Local Abbreviation stub_invoke decision limit fuel :=
  (invoke repr_sample stub_researcher stub_drafter (stub_editor decision)
          limit fuel "Random Forests" []).

Local Abbreviation stub_run decision limit fuel :=
  (run repr_sample stub_researcher stub_drafter (stub_editor decision)
       limit fuel "Random Forests" []).

Local Abbreviation real_researcher llm :=
  (the_researcher llm search_nothing repr_sample researcher_cfg).
Local Abbreviation real_drafter llm :=
  (the_drafter llm json_loads_sample repr_sample (drafter_cfg 10)).
Local Abbreviation real_editor llm :=
  (the_editor llm search_nothing json_loads_sample repr_sample
              researcher_cfg (drafter_cfg 10) EmptyString).
Local Abbreviation real_invoke llm limit fuel :=
  (invoke repr_sample (real_researcher llm) (real_drafter llm)
          (real_editor llm) limit fuel "Random Forests" []).
Local Abbreviation real_run llm limit fuel :=
  (run repr_sample (real_researcher llm) (real_drafter llm)
       (real_editor llm) limit fuel "Random Forests" []).

(** One node of a concrete run: the node is computed, and so is the edge
    taken from it. *)
Ltac trace_next :=
  match goal with
  | Hn : run_node _ _ _ _ _ _ _ = (inr _, _) |- _ =>
      vm_compute in Hn; inversion Hn; subst; clear Hn
  end;
  match goal with
  | Hx : next_node _ _ = Some _ |- _ =>
      vm_compute in Hx;
      first [discriminate Hx | inversion Hx; subst; clear Hx]
  end.

(** The node a concrete run has come to does not raise. *)
Ltac trace_calls :=
  match goal with
  | Hr : runs_to _ _ _ _ _ _ _ _ _ _ _,
    Hraise : run_node _ _ _ _ _ _ _ = (inl _, _) |- _ =>
      inversion Hr; subst; clear Hr;
      lazymatch goal with
      | _ : runs_to _ _ _ _ _ _ _ _ _ _ _ |- _ => trace_next
      | _ => vm_compute in Hraise; discriminate Hraise
      end
  end.

(** The review a concrete run has come to answers [revise_draft]. *)
Ltac trace_reviews :=
  match goal with
  | Hr : runs_to _ _ _ _ _ _ _ _ Review _ _,
    Hrev : run_node _ _ _ _ Review _ _ = (inr _, _) |- _ =>
      inversion Hr; subst; clear Hr;
      lazymatch goal with
      | _ : runs_to _ _ _ _ _ _ _ _ _ _ _ |- _ => trace_next
      | _ => vm_compute in Hrev; inversion Hrev; subst; vm_compute; reflexivity
      end
  end.

(** With a limit of zero and a reviewer that always asks for a new draft
    (the model's answer never parses, so every review falls back to
    [revise_draft]), the review node still runs once. *)
Lemma limit_zero_reviews_once :
  path_of (invoke_with "ok" 0) = Some [Research; Draft; Review; Finalize]
  /\ review_steps [Research; Draft; Review; Finalize] = 1%nat
  /\ review_steps [Research; Draft; Review; Finalize] <> Z.to_nat 0.
Proof. vm_compute. repeat split. discriminate. Qed.

(** With a limit of two the same reviewer is asked twice, with one
    revision in between. *)
Example limit_two_reviews_twice :
  path_of (invoke_with "ok" 2)
  = Some [Research; Draft; Review; Revise; Review; Finalize].
Proof. vm_compute. reflexivity. Qed.

(** The agents of [main.py] around a model whose every answer is [ok]:
    each call returns, the draft is the error post and every review falls
    back to [revise_draft]. *)
Lemma unparsed_answers_calls_return :
  calls_return repr_sample (real_researcher (llm_says "ok"))
               (real_drafter (llm_says "ok")) (real_editor (llm_says "ok"))
               Research (initial_state 2 "Random Forests") [].
Proof.
  intros k n' s' w' e w'' Hr Hraise.
  repeat trace_calls.
Qed.

Lemma unparsed_answers_never_approve :
  reviews_ask_for_draft repr_sample (real_researcher (llm_says "ok"))
               (real_drafter (llm_says "ok")) (real_editor (llm_says "ok"))
               Research (initial_state 2 "Random Forests") [].
Proof.
  intros k s' w' s'' w'' Hr Hrev.
  repeat trace_reviews.
Qed.

Lemma run_reviews_until_limit_witness :
  ((2 * Z.to_nat (Z.max 1 2) + 2 <= 30)%nat
   /\ exists s p w' res,
       real_invoke (llm_says "ok") 2 30%nat = (Done (s, p), w')
       /\ real_run (llm_says "ok") 2 30%nat = (Done res, w')
       /\ review_steps p = Z.to_nat (Z.max 1 2)
       /\ result_iterations res = Z.max 1 2)
  /\ ((5 < 2 * Z.to_nat (Z.max 1 2) + 2)%nat
      /\ exists e w',
          real_run (llm_says "ok") 2 5%nat = (Raised e, w')
          /\ exn_kind e = GraphRecursionError).
Proof.
  assert (Hfuel : (2 * Z.to_nat (Z.max 1 2) + 2 <= 30)%nat)
    by (vm_compute; lia).
  assert (Hshort : (5 < 2 * Z.to_nat (Z.max 1 2) + 2)%nat)
    by (vm_compute; lia).
  split; (split; [assumption|]).
  - exact (proj1 (run_reviews_until_limit repr_sample
                    (real_researcher (llm_says "ok"))
                    (real_drafter (llm_says "ok"))
                    (real_editor (llm_says "ok")) 2 "Random Forests" [] 30
                    unparsed_answers_calls_return
                    unparsed_answers_never_approve)
                 Hfuel).
  - exact (proj2 (run_reviews_until_limit repr_sample
                    (real_researcher (llm_says "ok"))
                    (real_drafter (llm_says "ok"))
                    (real_editor (llm_says "ok")) 2 "Random Forests" [] 5
                    unparsed_answers_calls_return
                    unparsed_answers_never_approve)
                 Hshort).
Defined.

(** The same run under a limit of twelve needs twenty-six nodes: an
    executor that runs twenty-five raises. *)
Example large_limit_exhausts_the_steps :
  option_map exn_kind (raised_of (real_run (llm_says "ok") 12 25%nat))
  = Some GraphRecursionError
  /\ path_of (real_invoke (llm_says "ok") 12 25%nat) = None
  /\ option_map (@List.length node)
       (path_of (real_invoke (llm_says "ok") 12 26%nat)) = Some 26%nat.
Proof. vm_compute. repeat split. Qed.

Lemma router_limit_takes_precedence_witness :
  let s := mkState "Random Forests" some_research some_post
                   revise_draft_record 2 2 [] [] in
  max_iterations s <= iteration s
  /\ review_decision_router s = max_iterations_reached.
Proof.
  intros s. split; [simpl; lia|].
  apply (router_limit_takes_precedence s). simpl. lia.
Defined.

(** The model is unreachable: the exception of its first call, made by
    the researcher, comes out of [run]. *)
Lemma run_raises_when_model_fails :
  raised_of (the_workflow_run llm_down search_nothing json_loads_sample
               repr_sample researcher_cfg (drafter_cfg 10) EmptyString 3 30
               "Random Forests" [])
  = Some (mkExn OtherException "connection error").
Proof. vm_compute. reflexivity. Qed.

(** The model answers the drafter with slides that are not records: the
    draft is accepted, and formatting it for the review raises. *)
Example run_raises_on_malformed_slides :
  option_map exn_kind
    (raised_of (the_workflow_run (llm_says bad_slides_text) search_nothing
                  json_loads_sample repr_sample researcher_cfg
                  (drafter_cfg 10) EmptyString 3 30 "Random Forests" []))
  = Some AttributeError.
Proof. vm_compute. reflexivity. Qed.

Lemma run_returns_or_lets_the_exception_through_witness :
  ((2 * Z.to_nat (Z.max 1 2) + 2 <= 30)%nat
   /\ exists s p w' res,
       real_invoke (llm_says "ok") 2 30%nat = (Done (s, p), w')
       /\ real_run (llm_says "ok") 2 30%nat = (Done res, w')
       /\ result_final_post res = post_data s
       /\ result_iterations res = Z.of_nat (review_steps p)
       /\ (review_steps p <= Z.to_nat (Z.max 1 2))%nat)
  /\ ((0 < 30)%nat
      /\ exists e w',
          run_node repr_sample (real_researcher llm_down)
                   (real_drafter llm_down) (real_editor llm_down)
                   Research (initial_state 2 "Random Forests") []
          = (inl e, w')
          /\ real_run llm_down 2 30%nat = (Raised e, w')).
Proof.
  assert (Hfuel : (2 * Z.to_nat (Z.max 1 2) + 2 <= 30)%nat)
    by (vm_compute; lia).
  assert (Hpos : (0 < 30)%nat) by lia.
  split; (split; [assumption|]).
  - exact (proj1 (proj1 (run_returns_or_lets_the_exception_through
                           repr_sample (real_researcher (llm_says "ok"))
                           (real_drafter (llm_says "ok"))
                           (real_editor (llm_says "ok")) 2
                           "Random Forests" [] 30)
                        unparsed_answers_calls_return)
                 Hfuel).
  - destruct (run_node repr_sample (real_researcher llm_down)
                       (real_drafter llm_down) (real_editor llm_down)
                       Research (initial_state 2 "Random Forests") [])
      as [[e|s1] w1] eqn:Hraise; [|exfalso; vm_compute in Hraise; discriminate].
    exists e, w1. split; [reflexivity|].
    exact (proj1 (proj2 (run_returns_or_lets_the_exception_through
                           repr_sample (real_researcher llm_down)
                           (real_drafter llm_down) (real_editor llm_down) 2
                           "Random Forests" [] 30))
                 0%nat Research (initial_state 2 "Random Forests") [] e w1
                 (runs_to_here repr_sample (real_researcher llm_down)
                    (real_drafter llm_down) (real_editor llm_down)
                    Research (initial_state 2 "Random Forests") [])
                 Hraise Hpos).
Defined.

(** Scenario A of the specification: approval at the first review. *)
Example approve_first_review :
  path_of (stub_invoke "approve" 3 10%nat)
  = Some [Research; Draft; Review; Finalize].
Proof. reflexivity. Qed.

End Runs.

Section AgentRuns.

Import Samples.

Local Abbreviation researcher_with text :=
  (the_researcher (llm_says text) search_nothing repr_sample researcher_cfg).
Local Abbreviation drafter_with text limit :=
  (the_drafter (llm_says text) json_loads_sample repr_sample
               (drafter_cfg limit)).
Local Abbreviation editor_with text :=
  (the_editor (llm_says text) search_nothing json_loads_sample repr_sample
              researcher_cfg (drafter_cfg 10) EmptyString).
Local Abbreviation dispatch_with text :=
  (editor_execute_action repr_sample (researcher_with text)
                         (drafter_with text 10)).

Local Abbreviation reviewed_state :=
  (mkState "Random Forests" some_research some_post [] 0 3 [] []).

Lemma review_stores_normalized_decision_witness :
  exists s' w',
    review_node repr_sample (editor_with maybe_text) reviewed_state []
    = (inr s', w')
    /\ dict_get (review_decision s') "decision" VNone = VStr "revise_draft".
Proof.
  destruct (review_stores_normalized_decision
              (llm_says maybe_text) json_loads_sample repr_sample
              (researcher_with maybe_text) (drafter_with maybe_text 10)
              EmptyString reviewed_state []
              _ _ maybe_text eq_refl eq_refl eq_refl)
    as (s' & w' & Hnode & _ & Hcoerce & _).
  exists s', w'. split; [exact Hnode|].
  apply Hcoerce. vm_compute. reflexivity.
Defined.

Lemma iteration_counts_review_steps_witness :
  exists s' w',
    review_node repr_sample (stub_editor "approve") reviewed_state []
    = (inr s', w')
    /\ iteration s' = iteration reviewed_state + 1.
Proof.
  eexists _, _. split; [reflexivity|].
  eapply (proj1 (iteration_counts_review_steps repr_sample stub_researcher
                   stub_drafter (stub_editor "approve"))
                reviewed_state []).
  reflexivity.
Defined.

Lemma execute_action_revision_isolation_witness :
  exists p' w',
    dispatch_with "ok" revise_draft_record some_research some_post
                  "Random Forests" []
    = (inr (some_research, p'), w').
Proof.
  eexists _, _.
  eapply (proj2 (proj1 (execute_action_revision_isolation repr_sample
                          (researcher_with "ok") (drafter_with "ok" 10)
                          revise_draft_record some_research some_post
                          "Random Forests" []) eq_refl)).
  - reflexivity.
  - vm_compute. reflexivity.
Defined.

(** The model is unreachable: the drafter lets the exception of the call
    through instead of returning an error post. *)
Lemma draft_post_raises_when_model_fails :
  fst (drafter_draft_post llm_down json_loads_sample repr_sample
         (drafter_cfg 10) some_research VNone [])
  = inl (mkExn OtherException "connection error").
Proof. vm_compute. reflexivity. Qed.

Lemma draft_post_failure_gives_error_post_witness :
  exists post w' content,
    drafter_draft_post (llm_says "ok") json_loads_sample repr_sample
      (drafter_cfg 10) some_research VNone [] = (inr post, w')
    /\ dict_lookup "post" post
       = Some (VDict [("slides",
                       VList [VDict [("page_number", VInt 1);
                                     ("title", VStr "Error");
                                     ("content", VStr content);
                                     ("layout", VStr "Error message")]])])
    /\ dict_lookup "slide_count" post = Some (VInt 1)
    /\ dict_lookup "error" post
       = Some (VStr "Expecting value: line 1 column 1 (char 0)").
Proof.
  apply (draft_post_failure_gives_error_post
           (llm_says "ok") json_loads_sample repr_sample (drafter_cfg 10)
           some_research VNone [] "ok"
           (mkExn JSONDecodeError "Expecting value: line 1 column 1 (char 0)")).
  - reflexivity.
  - right. vm_compute. reflexivity.
Defined.

(** The same record dispatched as ["maybe"] and as [revise_draft]: the
    first calls nothing and changes nothing, the second calls the drafter
    and replaces the draft. *)
Lemma maybe_is_not_dispatched_as_revise_draft :
  dispatch_with "ok" maybe_record some_research some_post
                "Random Forests" []
  = (inr (some_research, some_post), [])
  /\ dispatch_with "ok" maybe_record some_research some_post
                   "Random Forests" []
     <> dispatch_with "ok" revise_draft_record some_research some_post
                      "Random Forests" [].
Proof.
  split; [vm_compute; reflexivity|].
  intros H. apply (f_equal (fun r => List.length (snd r))) in H.
  vm_compute in H. discriminate.
Qed.

Lemma maybe_is_noop_in_dispatch_witness :
  dispatch_with "ok" maybe_record some_research some_post
                "Random Forests" []
  = (inr (some_research, some_post), []).
Proof.
  apply (proj1 (maybe_is_noop_in_dispatch_and_coerced_at_review
                  json_loads_sample repr_sample (researcher_with "ok")
                  (drafter_with "ok" 10))).
  reflexivity.
Defined.

Lemma draft_post_slide_count_and_bound_witness :
  0 <= max_slides (drafter_cfg 2)
  /\ exists post w' post_data slides n,
      drafter_draft_post (llm_says three_slides_text) json_loads_sample
        repr_sample (drafter_cfg 2) some_research VNone [] = (inr post, w')
      /\ dict_lookup "post" post = Some post_data
      /\ py_getitem post_data "slides" = inr slides
      /\ py_len slides = inr n
      /\ dict_lookup "slide_count" post = Some (VInt n)
      /\ n <= 2
      /\ slides = VList [VStr "a"; VStr "b"].
Proof.
  split; [simpl; lia|].
  destruct (draft_post_slide_count_and_bound
              (llm_says three_slides_text) json_loads_sample repr_sample
              (drafter_cfg 2) some_research VNone [] three_slides_text
              ltac:(simpl; lia) eq_refl)
    as (post & w' & post_data & slides & n
        & Hpost & Hp & Hget & Hlen & Hcount & _ & Hcut).
  destruct (Hcut [("slides", VList [VStr "a"; VStr "b"; VStr "c"])]
                 [VStr "a"; VStr "b"; VStr "c"])
    as (Herr & Hslides); [vm_compute; reflexivity|reflexivity|].
  exists post, w', post_data, slides, n.
  repeat (split; [assumption|]).
  split; [|exact Hslides].
  rewrite Hslides in Hlen. simpl in Hlen. inversion Hlen. lia.
Defined.

End AgentRuns.

(** * Further properties *)

(** ** The graph: what every completed invocation looks like *)

Lemma dict_lookup_set_other (d : pydict) (k k' : string) (v : value) :
  k <> k' -> dict_lookup k (dict_set d k' v) = dict_lookup k d.
Proof.
  intros Hne. induction d as [|[k0 v0] d IH]; simpl.
  - destruct (String.eqb_spec k k'); [contradiction|reflexivity].
  - destruct (String.eqb_spec k' k0) as [->|Hk0]; simpl.
    + destruct (String.eqb_spec k k0); [contradiction|reflexivity].
    + destruct (String.eqb k k0); [reflexivity|exact IH].
Qed.

Lemma approve_is_looked_up (d : pydict) :
  is_str (dict_get d "decision" (VStr "revise_draft")) "approve" = true ->
  dict_lookup "decision" d = Some (VStr "approve").
Proof.
  unfold dict_get. destruct (dict_lookup "decision" d) as [v|].
  - destruct v; simpl; try discriminate.
    intros H. apply String.eqb_eq in H. now subst.
  - simpl. discriminate.
Qed.

Section WorkflowShape.

Variable py_repr : value -> string.
Variable researcher : ResearcherAgent.
Variable drafter : DrafterAgent.
Variable editor : EditorInChiefAgent.

Local Abbreviation sh_run_node := (run_node py_repr researcher drafter editor).
Local Abbreviation sh_invoke_from :=
  (invoke_from py_repr researcher drafter editor).
Local Abbreviation sh_invoke := (invoke py_repr researcher drafter editor).
Local Abbreviation sh_run := (run py_repr researcher drafter editor).

(** The workflow ended on a review of the very draft it finalized. *)
Local Abbreviation ended_on_review s' :=
  ((exists w0 w1,
       review_post editor (post_data s') (research_data s') w0
       = (inr (review_decision s'), w1))
   /\ final_post s' = post_data s'
   /\ (iteration s' < max_iterations s' ->
       dict_lookup "decision" (review_decision s') = Some (VStr "approve"))).

Lemma run_node_frame n s w s' w' :
  sh_run_node n s w = (inr s', w') ->
  topic s' = topic s /\ max_iterations s' = max_iterations s.
Proof.
  destruct n; simpl; intros H.
  - unfold research_node in H. unbind H. unfold ret in H.
    inversion H; subst; clear H. simpl. auto.
  - unfold draft_node in H. unbind H. unfold ret in H.
    inversion H; subst; clear H. simpl. auto.
  - unfold review_node in H. unbind H. unfold ret in H.
    inversion H; subst; clear H. simpl. auto.
  - unfold revise_node in H. unbind H. destruct r as [r p].
    unfold ret in H. inversion H; subst; clear H. simpl. auto.
  - unfold ret in H. inversion H; subst; clear H. simpl. auto.
Qed.

Lemma invoke_from_frame fuel :
  forall n s w s' p w',
    sh_invoke_from fuel n s w = (Done (s', p), w') ->
    topic s' = topic s /\ max_iterations s' = max_iterations s.
Proof.
  induction fuel as [|fuel IH]; intros n s w s' p w' H; simpl in H.
  - discriminate.
  - destruct (sh_run_node n s w) as [[e|s1] w1] eqn:Hn; [discriminate|].
    apply run_node_frame in Hn. destruct Hn as (Ht & Hm).
    destruct (next_node n s1) as [n'|].
    + destruct (sh_invoke_from fuel n' s1 w1) as [[[sf pf]|e] w2] eqn:Hrec;
        inversion H; subst; clear H.
      apply IH in Hrec. destruct Hrec as (Ht' & Hm').
      split; congruence.
    + inversion H; subst; clear H. split; assumption.
Qed.

Lemma invoke_from_shape fuel :
  (forall s w s' p w',
      sh_invoke_from fuel Finalize s w = (Done (s', p), w') ->
      p = [Finalize] /\ s' = finalize_node s)
  /\ (forall s w s' p w',
      sh_invoke_from fuel Review s w = (Done (s', p), w') ->
      exists k,
        p = (revision_cycles k ++ [Review; Finalize])%list
        /\ Z.of_nat (S k) <= Z.max 1 (max_iterations s - iteration s)
        /\ ended_on_review s')
  /\ (forall s w s' p w',
      sh_invoke_from fuel Revise s w = (Done (s', p), w') ->
      iteration s < max_iterations s ->
      exists k,
        p = (Revise :: revision_cycles k ++ [Review; Finalize])%list
        /\ Z.of_nat (S k) <= max_iterations s - iteration s
        /\ ended_on_review s').
Proof.
  induction fuel as [|fuel (IHf & IHr & IHv)].
  - repeat split; intros; discriminate.
  - split; [|split]; intros s w s' p w' H; simpl in H.
    + (* Finalize *)
      unfold ret in H. inversion H; subst. auto.
    + (* Review *)
      destruct (review_node py_repr editor s w) as [[e|s1] w1] eqn:Hrev;
        [discriminate|].
      apply review_node_returns in Hrev.
      destruct Hrev as (d & Hd & Hdec & Hit & Hmax & Hpost & Hres).
      destruct (sh_invoke_from fuel (review_edges (review_decision_router s1))
                  s1 w1) as [[[sf pf]|e] w2] eqn:Hrec;
        inversion H; subst sf p w2; clear H.
      destruct (review_decision_router s1) eqn:Hroute; cbn [review_edges] in Hrec.
      * (* approved *)
        apply IHf in Hrec. destruct Hrec as (-> & ->).
        exists 0%nat. split; [reflexivity|]. split; [lia|].
        split; [|split].
        -- exists w, w1. simpl. rewrite Hpost, Hres, Hdec. exact Hd.
        -- reflexivity.
        -- intros _. simpl. unfold review_decision_router in Hroute.
           destruct (iteration s1 >=? max_iterations s1); [discriminate|].
           destruct (is_str _ _) eqn:Hstr; [|discriminate].
           now apply approve_is_looked_up.
      * (* revise *)
        assert (Hlt : iteration s1 < max_iterations s1).
        { unfold review_decision_router in Hroute.
          destruct (Z.geb_spec (iteration s1) (max_iterations s1));
            [discriminate|lia]. }
        destruct (IHv _ _ _ _ _ Hrec Hlt) as (k & -> & Hk & Hend).
        exists (S k). split; [reflexivity|]. split; [lia|exact Hend].
      * (* max_iterations *)
        apply IHf in Hrec. destruct Hrec as (-> & ->).
        exists 0%nat. split; [reflexivity|]. split; [lia|].
        split; [|split].
        -- exists w, w1. simpl. rewrite Hpost, Hres, Hdec. exact Hd.
        -- reflexivity.
        -- simpl. unfold review_decision_router in Hroute.
           destruct (Z.geb_spec (iteration s1) (max_iterations s1)); [lia|].
           destruct (is_str _ _); discriminate.
    + (* Revise *)
      intros Hlt.
      destruct (revise_node py_repr editor s w) as [[e|s1] w1] eqn:Hrvs;
        [discriminate|].
      apply revise_node_returns in Hrvs. destruct Hrvs as (Hit & Hmax & _).
      destruct (sh_invoke_from fuel Review s1 w1) as [[[sf pf]|e] w2] eqn:Hrec;
        inversion H; subst sf p w2; clear H.
      destruct (IHr _ _ _ _ _ Hrec) as (k & -> & Hk & Hend).
      exists k. split; [reflexivity|]. split; [lia|exact Hend].
Qed.

(** From the entry point. *)
Lemma invoke_shape (limit : Z) (fuel : nat) (topic : string) (w : world)
    s' p w' :
  sh_invoke limit fuel topic w = (Done (s', p), w') ->
  exists k,
    p = (Research :: Draft :: revision_cycles k ++ [Review; Finalize])%list
    /\ Z.of_nat (S k) <= Z.max 1 limit
    /\ max_iterations s' = limit
    /\ ended_on_review s'.
Proof.
  unfold invoke. intros H.
  pose proof (invoke_from_frame _ _ _ _ _ _ _ H) as (_ & Hlim).
  destruct fuel as [|[|fuel]]; simpl in H; try discriminate.
  - destruct (research_node researcher (initial_state limit topic) w)
      as [[e|s1] w1]; discriminate.
  - destruct (research_node researcher (initial_state limit topic) w)
      as [[e|s1] w1] eqn:H1; [discriminate|].
    apply research_node_returns in H1. destruct H1 as (Hi1 & Hm1).
    destruct (draft_node py_repr drafter s1 w1) as [[e|s2] w2] eqn:H2;
      [discriminate|].
    apply draft_node_returns in H2. destruct H2 as (Hi2 & Hm2).
    destruct (sh_invoke_from fuel Review s2 w2) as [[[sf pf]|e] w3] eqn:Hrec;
      inversion H; subst sf p w3; clear H.
    destruct (proj1 (proj2 (invoke_from_shape fuel)) _ _ _ _ _ Hrec)
      as (k & -> & Hk & Hend).
    simpl in Hi1, Hm1.
    exists k. split; [reflexivity|]. split; [|split; [exact Hlim|exact Hend]].
    replace (max_iterations s2 - iteration s2) with limit in Hk by lia.
    exact Hk.
Qed.

Lemma review_steps_cycles (k : nat) :
  review_steps (revision_cycles k ++ [Review; Finalize]) = S k.
Proof.
  induction k as [|k IH]; [reflexivity|].
  change (review_steps (revision_cycles (S k) ++ [Review; Finalize]))
    with (S (review_steps (revision_cycles k ++ [Review; Finalize]))).
  now rewrite IH.
Qed.

(** X1. No node writes the topic or the iteration limit: a completed
    invocation, from any node and state, ends with both as it found
    them. *)
Theorem invoke_keeps_topic_and_limit fuel n s w s' p w' :
  invoke_from py_repr researcher drafter editor fuel n s w = (Done (s', p), w') ->
  topic s' = topic s /\ max_iterations s' = max_iterations s.
Proof.
  intros H. apply invoke_from_frame in H. tauto.
Qed.

(** X3. Every completed run, whatever the agents do, goes through
    research, draft, then some number [k] of review-revise rounds, then a
    last review and finalize; it made [k + 1] reviews and [k] revisions,
    and its counter ends at [k + 1]. *)
Theorem invoke_path_shape (limit : Z) (fuel : nat) (topic : string)
    (w : world) s' p w' :
  sh_invoke limit fuel topic w = (Done (s', p), w') ->
  exists k,
    p = (Research :: Draft :: revision_cycles k ++ [Review; Finalize])%list
    /\ review_steps p = S k
    /\ List.length p = (2 * k + 4)%nat
    /\ iteration s' = Z.of_nat (S k).
Proof.
  intros H.
  pose proof (invoke_from_iteration _ _ _ _ _ _ _ _ _ _ _ H) as Hit.
  destruct (invoke_shape _ _ _ _ _ _ _ H) as (k & Hp & _).
  assert (Hsteps : review_steps p = S k).
  { rewrite Hp.
    change (review_steps
              (Research :: Draft :: revision_cycles k ++ [Review; Finalize]))
      with (review_steps (revision_cycles k ++ [Review; Finalize])).
    apply review_steps_cycles. }
  exists k. split; [exact Hp|]. split; [exact Hsteps|]. split.
  - rewrite Hp. simpl. rewrite length_app. simpl.
    clear. induction k as [|k IH]; simpl in *; lia.
  - rewrite Hit, Hsteps. simpl iteration. lia.
Qed.

(** X4. Whatever the agents answer, a run that returns reports at least
    one iteration and at most [max 1 limit]: the reviewer cannot push the
    count past the limit. *)
Theorem run_iterations_within_limit (limit : Z) (fuel : nat)
    (topic : string) (w : world) res w' :
  sh_run limit fuel topic w = (Done res, w') ->
  1 <= result_iterations res <= Z.max 1 limit.
Proof.
  unfold run. intros H.
  destruct (sh_invoke limit fuel topic w) as [[[s p]|e] w1] eqn:Hinv;
    inversion H; subst; clear H. simpl.
  pose proof (invoke_from_iteration _ _ _ _ _ _ _ _ _ _ _ Hinv) as Hit.
  destruct (invoke_shape _ _ _ _ _ _ _ Hinv) as (k & Hp & Hk & _).
  rewrite Hp in Hit.
  change (review_steps
            (Research :: Draft :: revision_cycles k ++ [Review; Finalize]))
    with (review_steps (revision_cycles k ++ [Review; Finalize])) in Hit.
  rewrite review_steps_cycles in Hit. simpl iteration in Hit. lia.
Qed.

(** X5. A run that ends with its counter below the limit ended because
    the last review approved: the stored decision record then has kind
    [approve]. *)
Theorem early_finish_means_approved (limit : Z) (fuel : nat)
    (topic : string) (w : world) s' p w' :
  sh_invoke limit fuel topic w = (Done (s', p), w') ->
  iteration s' < limit ->
  dict_lookup "decision" (review_decision s') = Some (VStr "approve").
Proof.
  intros H Hlt.
  destruct (invoke_shape _ _ _ _ _ _ _ H) as (k & _ & _ & Hlim & _ & _ & Happ).
  apply Happ. lia.
Qed.

(** X6. The post a completed run hands out is the draft its last review
    was about: the stored decision is the editor's answer for that very
    draft and research, never for an earlier version. *)
Theorem final_post_is_the_reviewed_draft (limit : Z) (fuel : nat)
    (topic : string) (w : world) s' p w' :
  sh_invoke limit fuel topic w = (Done (s', p), w') ->
  final_post s' = post_data s'
  /\ exists w0 w1,
      review_post editor (final_post s') (research_data s') w0
      = (inr (review_decision s'), w1).
Proof.
  intros H.
  destruct (invoke_shape _ _ _ _ _ _ _ H)
    as (k & _ & _ & _ & (w0 & w1 & Hrev) & Hfp & _).
  split; [exact Hfp|]. exists w0, w1. rewrite Hfp. exact Hrev.
Qed.

End WorkflowShape.

(** X7. The router, case by case: at or past the limit it answers
    [max_iterations], an approval included; below the limit it answers
    [approved] exactly when the record holds the string [approve] under
    [decision], and [revise] for everything else, a record without a
    [decision] included. *)
Theorem router_routes_exactly (s : WorkflowState) :
  (review_decision_router s = max_iterations_reached
   <-> max_iterations s <= iteration s)
  /\ (review_decision_router s = approved
      <-> iteration s < max_iterations s
          /\ dict_lookup "decision" (review_decision s)
             = Some (VStr "approve"))
  /\ (review_decision_router s = revise
      <-> iteration s < max_iterations s
          /\ dict_lookup "decision" (review_decision s)
             <> Some (VStr "approve")).
Proof.
  unfold review_decision_router.
  destruct (Z.geb_spec (iteration s) (max_iterations s)) as [Hge|Hlt].
  - split; [|split].
    + split; intros _; [lia|reflexivity].
    + split; [discriminate|]. intros [Hlt _]. lia.
    + split; [discriminate|]. intros [Hlt _]. lia.
  - destruct (is_str (dict_get (review_decision s) "decision"
                               (VStr "revise_draft")) "approve") eqn:Hstr.
    + apply approve_is_looked_up in Hstr. split; [|split].
      * split; [discriminate|]. intros Hge. lia.
      * split; intros _; [split; [lia|exact Hstr]|reflexivity].
      * split; [discriminate|]. intros [_ Hno]. contradiction.
    + assert (Hno : dict_lookup "decision" (review_decision s)
                    <> Some (VStr "approve")).
      { intros Hl. unfold dict_get in Hstr. rewrite Hl in Hstr.
        simpl in Hstr. discriminate. }
      split; [|split].
      * split; [discriminate|]. intros Hge. lia.
      * split; [discriminate|]. intros [_ Hyes]. contradiction.
      * split; intros _; [split; [lia|exact Hno]|reflexivity].
Qed.

(** ** The researcher *)

Section ResearcherFacts.

Variable llm_invoke : world -> string -> string -> result string.
Variable tavily_search : world -> string -> result value.
Variable py_repr : value -> string.
Variable cfg : researcher_config.

Local Abbreviation rs_search_topic :=
  (search_topic tavily_search py_repr).
Local Abbreviation rs_research :=
  (researcher_research llm_invoke tavily_search py_repr cfg).

(** The query sent to the search client. *)
Local Abbreviation query_for topic focus_areas :=
  (if py_truthy focus_areas
   then String.append topic (" " ++ py_str py_repr focus_areas)
   else topic%string).

(** The note the research prompt carries about the focus. *)
Local Abbreviation focus_note focus_areas :=
  (if py_truthy focus_areas
   then nl ++ nl ++ "Please pay special attention to: "
        ++ py_str py_repr focus_areas
   else EmptyString).

Lemma search_topic_cases (topic : string) (focus_areas : value) (w : world) :
  exists text,
    rs_search_topic topic focus_areas w
    = (inr text, (w ++ [SearchCall (query_for topic focus_areas)])%list)
    /\ (forall e,
           tavily_search w (query_for topic focus_areas) = inl e ->
           text = "Search error: " ++ exn_str e)
    /\ (forall d,
           tavily_search w (query_for topic focus_areas) = inr (VDict d) ->
           dict_get d "results" (VList []) = VList [] ->
           text = EmptyString)
    /\ (forall v,
           tavily_search w (query_for topic focus_areas) = inr v ->
           is_dict v = false ->
           exists msg, text = "Search error: " ++ msg).
Proof.
  unfold search_topic, try_except, bind, call_search, lift, ret.
  destruct (tavily_search w (query_for topic focus_areas)) as [e|v] eqn:Hs.
  - eexists. split; [reflexivity|]. split; [|split].
    + intros e' He'. inversion He'; subst. reflexivity.
    + intros d Hd. discriminate.
    + intros v Hv. discriminate.
  - destruct (py_get v "results" (VList [])) as [e|results] eqn:Hget.
    + eexists. split; [reflexivity|]. split; [|split].
      * intros e' He'. discriminate.
      * intros d Hd. inversion Hd; subst. simpl in Hget. discriminate.
      * intros v' Hv' _. eexists. reflexivity.
    + destruct (py_iter results) as [e|items] eqn:Hit.
      * eexists. split; [reflexivity|]. split; [|split].
        -- intros e' He'. discriminate.
        -- intros d Hd Hres. inversion Hd; subst. simpl in Hget.
           inversion Hget; subst. rewrite Hres in Hit. discriminate.
        -- intros v' Hv' Hnd. inversion Hv'; subst.
           destruct v'; simpl in Hget, Hnd; discriminate.
      * destruct (map_result (format_search_result py_repr) items)
          as [e|formatted] eqn:Hfmt.
        -- eexists. split; [reflexivity|]. split; [|split].
           ++ intros e' He'. discriminate.
           ++ intros d Hd Hres. inversion Hd; subst. simpl in Hget.
              inversion Hget; subst. rewrite Hres in Hit.
              inversion Hit; subst. simpl in Hfmt. discriminate.
           ++ intros v' Hv' Hnd. inversion Hv'; subst.
              destruct v'; simpl in Hget, Hnd; discriminate.
        -- eexists. split; [reflexivity|]. split; [|split].
           ++ intros e' He'. discriminate.
           ++ intros d Hd Hres. inversion Hd; subst. simpl in Hget.
              inversion Hget; subst. rewrite Hres in Hit.
              inversion Hit; subst. simpl in Hfmt.
              inversion Hfmt; subst. reflexivity.
           ++ intros v' Hv' Hnd. inversion Hv'; subst.
              destruct v'; simpl in Hget, Hnd; discriminate.
Qed.

(** X8. [search_topic] never raises and always makes exactly one search,
    for the topic alone when there is no focus and for the topic followed
    by the focus otherwise; when the search client raises, or answers with
    something that is not a [dict], what comes back is a text that starts
    with [Search error: ]. *)
Theorem search_topic_never_raises
    (topic : string) (focus_areas : value) (w : world) :
  exists text,
    rs_search_topic topic focus_areas w
    = (inr text, (w ++ [SearchCall (query_for topic focus_areas)])%list)
    /\ (forall e,
           tavily_search w (query_for topic focus_areas) = inl e ->
           text = "Search error: " ++ exn_str e)
    /\ (forall v,
           tavily_search w (query_for topic focus_areas) = inr v ->
           is_dict v = false ->
           exists msg, text = "Search error: " ++ msg).
Proof.
  destruct (search_topic_cases topic focus_areas w)
    as (text & H & Herr & _ & Hnd).
  exists text. auto.
Qed.

(** X9. A search answer without a [results] entry, or with an empty
    list of results, gives the empty text, not an error. *)
Theorem search_topic_without_results
    (topic : string) (focus_areas : value) (w : world) (d : pydict) :
  tavily_search w (query_for topic focus_areas) = inr (VDict d) ->
  dict_get d "results" (VList []) = VList [] ->
  rs_search_topic topic focus_areas w
  = (inr EmptyString, (w ++ [SearchCall (query_for topic focus_areas)])%list).
Proof.
  intros Hs Hres.
  destruct (search_topic_cases topic focus_areas w)
    as (text & H & _ & Hempty & _).
  rewrite H. now rewrite (Hempty d Hs Hres).
Qed.

(** X10. [research] makes one search and then one model call, and its
    fate is the model's alone: whatever the search did, it returns the
    record of topic, model answer, focus and word count when the model
    answers, and raises the model's exception when the model raises. *)
Theorem research_fails_only_with_the_model
    (topic : string) (focus_areas : value) (w : world) :
  exists text,
    let w1 := (w ++ [SearchCall (query_for topic focus_areas)])%list in
    let prompt := research_prompt cfg topic (focus_note focus_areas) text in
    let w2 := (w1 ++ [LlmCall (researcher_instructions cfg) prompt])%list in
    (forall content,
        llm_invoke w1 (researcher_instructions cfg) prompt = inr content ->
        rs_research topic focus_areas w
        = (inr [("topic", VStr topic);
                ("research_content", VStr content);
                ("focus_areas", focus_areas);
                ("word_count", VInt (word_count content))], w2))
    /\ (forall e,
        llm_invoke w1 (researcher_instructions cfg) prompt = inl e ->
        rs_research topic focus_areas w = (inl e, w2)).
Proof.
  destruct (search_topic_cases topic focus_areas w) as (text & H & _).
  exists text. cbv zeta.
  unfold researcher_research, bind, call_llm, ret. rewrite H.
  split; intros x Hx; rewrite Hx; reflexivity.
Qed.

End ResearcherFacts.

(** ** The editor, further *)

Lemma all_strs_rejects (l : list value) (x : value) :
  In x l -> (forall s, x <> VStr s) ->
  exists msg, all_strs l = inl (mkExn TypeError msg).
Proof.
  intros Hin Hx. induction l as [|a l IH]; [contradiction|].
  destruct Hin as [->|Hin].
  - destruct x; simpl; try (eexists; reflexivity).
    exfalso. now apply (Hx s).
  - destruct (IH Hin) as (msg & Hl).
    destruct a; simpl; try (eexists; reflexivity).
    rewrite Hl. eexists. reflexivity.
Qed.

Section EditorMore.

Variable json_loads : string -> result value.
Variable py_repr : value -> string.
Variable researcher_agent : ResearcherAgent.
Variable drafter_agent : DrafterAgent.

Local Abbreviation em_execute_action :=
  (editor_execute_action py_repr researcher_agent drafter_agent).
Local Abbreviation em_review_post_parse := (review_post_parse json_loads).

(** X11. The dispatch acts on two kinds only: for any record whose kind
    is neither [revise_research] nor [revise_draft] (an approval, a record
    without a kind, a kind that is not a string) it calls nothing and hands
    back both artifacts as they were. *)
Theorem execute_action_other_kinds_noop
    (d r p : pydict) (topic : string) (w : world) :
  is_str (dict_get d "decision" VNone) "revise_research" = false ->
  is_str (dict_get d "decision" VNone) "revise_draft" = false ->
  em_execute_action d r p topic w = (inr (r, p), w).
Proof.
  intros H1 H2. unfold editor_execute_action. rewrite H1, H2.
  destruct (is_str (dict_get d "decision" VNone) "approve"); reflexivity.
Qed.

(** X12. Normalizing a review touches the kind only: whatever record the
    answer parsed to, the stored record has the same entry as the parsed
    one under every key other than [decision]. *)
Theorem review_keeps_other_fields
    (response_content : string) (parsed : pydict) (k : string) :
  json_loads (fenced_json response_content) = inr (VDict parsed) ->
  k <> "decision" ->
  dict_lookup k (em_review_post_parse response_content)
  = dict_lookup k parsed.
Proof.
  intros Hload Hk. unfold review_post_parse, review_post_try.
  rewrite Hload.
  destruct (is_valid_decision (dict_get parsed "decision" VNone));
    cbn [negb]; [reflexivity|].
  now apply dict_lookup_set_other.
Qed.

(** X13. A research revision needs its suggestions to be strings: when
    the list of suggestions holds anything that is not a string, the
    dispatch raises a [TypeError] before any capability is called. *)
Theorem revise_research_rejects_non_string_suggestions
    (d r p : pydict) (topic : string) (w : world)
    (l : list value) (x : value) :
  dict_get d "decision" VNone = VStr "revise_research" ->
  dict_get d "suggestions" (VList []) = VList l ->
  In x l -> (forall s, x <> VStr s) ->
  exists msg,
    em_execute_action d r p topic w = (inl (mkExn TypeError msg), w).
Proof.
  intros Hdec Hsug Hin Hx.
  destruct (all_strs_rejects l x Hin Hx) as (msg & Hall).
  exists msg. unfold editor_execute_action. rewrite Hdec, Hsug.
  cbn [is_str].
  change (String.eqb "revise_research" "approve") with false.
  change (String.eqb "revise_research" "revise_research") with true.
  cbv iota. unfold bind, lift, focus_areas_of, py_join.
  destruct l as [|a l']; [contradiction|].
  cbn [py_truthy py_iter]. rewrite Hall. reflexivity.
Qed.

End EditorMore.

(** ** The drafter and the formatters, further *)

Lemma map_result_returns_iff {A B : Type} (f : A -> result B)
    (ok : A -> bool) (l : list A) :
  (forall a, (exists b, f a = inr b) <-> ok a = true) ->
  ((exists bs, map_result f l = inr bs) <-> forallb ok l = true).
Proof.
  intros Hf. induction l as [|a l IH]; simpl.
  - split; [reflexivity|]. intros _. now exists [].
  - rewrite andb_true_iff, <- IH, <- Hf. split.
    + intros (bs & H). destruct (f a) as [e|b]; [discriminate|].
      destruct (map_result f l) as [e|bs']; [discriminate|].
      split; eexists; reflexivity.
    + intros ((b & Hb) & (bs & Hbs)). rewrite Hb, Hbs.
      eexists. reflexivity.
Qed.

Section DrafterMore.

Variable llm_invoke : world -> string -> string -> result string.
Variable json_loads : string -> result value.
Variable py_repr : value -> string.
Variable cfg : drafter_config.

Local Abbreviation dm_format := (drafter_format_post_for_display py_repr).
Local Abbreviation dm_utils_format := (utils_format_post_for_display py_repr).
Local Abbreviation dm_try := (draft_post_try json_loads cfg).
Local Abbreviation dm_parse := (draft_post_parse json_loads cfg).

Lemma format_slide_returns_iff (v : value) :
  (exists ls, format_slide py_repr v = inr ls) <-> is_dict v = true.
Proof.
  destruct v; simpl; split; intros H; try discriminate;
    try (destruct H; discriminate); try reflexivity.
  eexists. reflexivity.
Qed.

Lemma utils_format_slide_returns_iff (v : value) :
  (exists ls, utils_format_slide py_repr v = inr ls) <-> is_dict v = true.
Proof.
  destruct v; simpl; split; intros H; try discriminate;
    try (destruct H; discriminate); try reflexivity.
  eexists. reflexivity.
Qed.

Lemma format_returns_iff_displayable (post_data : pydict) :
  (exists text, dm_format post_data = inr text)
  <-> displayable post_data = true.
Proof.
  unfold drafter_format_post_for_display, displayable.
  destruct (dict_lookup "post" post_data) as [post|].
  - destruct post; simpl;
      try (split; [intros (t & H); discriminate|discriminate]).
    destruct (py_iter (dict_get d "slides" (VList []))) as [e|items].
    + split; [intros (t & H); discriminate|discriminate].
    + rewrite <- (map_result_returns_iff (format_slide py_repr) is_dict items
                    format_slide_returns_iff).
      split.
      * intros (t & H).
        destruct (map_result (format_slide py_repr) items); [discriminate|].
        eexists. reflexivity.
      * intros (bs & H). rewrite H. eexists. reflexivity.
  - split; [reflexivity|]. intros _. eexists. reflexivity.
Qed.

Lemma utils_format_returns_iff_displayable (post_data : pydict) :
  (exists text, dm_utils_format post_data = inr text)
  <-> displayable post_data = true.
Proof.
  unfold utils_format_post_for_display, displayable.
  destruct post_data as [|kv rest].
  - simpl. split; [reflexivity|]. intros _. eexists. reflexivity.
  - destruct (dict_lookup "post" (kv :: rest)) as [post|].
    + destruct post; simpl;
        try (split; [intros (t & H); discriminate|discriminate]).
      destruct (py_iter (dict_get d "slides" (VList []))) as [e|items].
      * split; [intros (t & H); discriminate|discriminate].
      * rewrite <- (map_result_returns_iff (utils_format_slide py_repr)
                      is_dict items utils_format_slide_returns_iff).
        split.
        -- intros (t & H).
           destruct (map_result (utils_format_slide py_repr) items);
             [discriminate|].
           eexists. reflexivity.
        -- intros (bs & H). rewrite H. eexists. reflexivity.
    + split; [reflexivity|]. intros _. eexists. reflexivity.
Qed.

(** X14. The drafter's [format_post_for_display] returns exactly on the
    posts that have no [post] entry, or whose [post] entry is a [dict] with
    slides that can be iterated and are all [dict]s; on every other post it
    raises. *)
Theorem format_post_for_display_returns_iff_displayable
    (post_data : pydict) :
  (exists text, dm_format post_data = inr text)
  <-> displayable post_data = true.
Proof. apply format_returns_iff_displayable. Qed.

(** X15. The formatter of [utils.py], which prints the final post, and
    the drafter's, which the review uses, accept the same posts: one
    returns exactly when the other does. *)
Theorem formatters_accept_the_same_posts (post_data : pydict) :
  (exists text, dm_format post_data = inr text)
  <-> (exists text, dm_utils_format post_data = inr text).
Proof.
  rewrite format_returns_iff_displayable.
  now rewrite utils_format_returns_iff_displayable.
Qed.

(** X16. The fallback post of a failed draft can always be formatted:
    when turning the model's answer into a post fails, the post
    [draft_post] makes instead goes through [format_post_for_display]
    without raising, so a failed draft never breaks the review that
    follows. *)
Theorem fallback_post_is_displayable
    (research_data : pydict) (response_content : string) (e : exn) :
  dm_try research_data response_content = inl e ->
  exists text, dm_format (dm_parse research_data response_content) = inr text.
Proof.
  intros Htry. apply format_returns_iff_displayable.
  unfold draft_post_parse. rewrite Htry.
  destruct (is_json_decode_error e); reflexivity.
Qed.

(** X17. A parsed record without a [slides] entry is refused: the post
    returned is the fallback one, whose single slide says that the
    response does not contain the key. *)
Theorem draft_post_missing_slides_key
    (research_data : pydict) (response_content : string) (parsed : pydict) :
  json_loads (fenced_json response_content) = inr (VDict parsed) ->
  dict_lookup "slides" parsed = None ->
  dm_parse research_data response_content
  = error_post research_data
      "Unexpected error: Response does not contain 'slides' key"
      (mkExn ValueError "Response does not contain 'slides' key").
Proof.
  intros Hload Hnone. unfold draft_post_parse, draft_post_try.
  rewrite Hload. cbn [py_in]. unfold dict_has. rewrite Hnone. reflexivity.
Qed.

(** X18. Cutting the slides changes nothing else in what the model sent:
    the record kept under [post] has the parsed record's entry under every
    key other than [slides], and is the parsed record itself when its
    slides were few enough. *)
Theorem draft_post_keeps_other_keys
    (research_data : pydict) (response_content : string)
    (parsed post : pydict) :
  json_loads (fenced_json response_content) = inr (VDict parsed) ->
  dm_try research_data response_content = inr post ->
  exists kept,
    dict_lookup "post" post = Some (VDict kept)
    /\ (forall k, k <> "slides" -> dict_lookup k kept = dict_lookup k parsed)
    /\ (forall slides n,
           dict_lookup "slides" parsed = Some slides ->
           py_len slides = inr n ->
           n <= max_slides cfg ->
           kept = parsed).
Proof.
  intros Hload. unfold draft_post_try. rewrite Hload. cbn [py_in py_getitem].
  destruct (dict_has "slides" parsed); cbn [negb]; [|discriminate].
  destruct (dict_lookup "slides" parsed) as [slides|] eqn:Hl; [|discriminate].
  destruct (py_len slides) as [e|n] eqn:Hlen; [discriminate|].
  destruct (Z.gtb_spec n (max_slides cfg)) as [Hgt|Hle].
  - destruct (py_slice_to slides (max_slides cfg)) as [e|truncated];
      [discriminate|].
    cbn [py_setitem py_getitem]. rewrite dict_lookup_set_same.
    destruct (py_len truncated) as [e|n']; [discriminate|].
    intros H. inversion H; subst; clear H.
    exists (dict_set parsed "slides" truncated).
    split; [reflexivity|]. split.
    + intros k Hk. now apply dict_lookup_set_other.
    + intros slides' m Hs Hm Hle. inversion Hs; subst.
      rewrite Hlen in Hm. inversion Hm; subst. lia.
  - cbn [py_getitem]. rewrite Hl, Hlen.
    intros H. inversion H; subst; clear H.
    exists parsed. split; [reflexivity|]. split; auto.
Qed.

(** X19. The post is labelled with the topic of the research it was
    drafted from, on the parsed path and on the fallback path alike:
    its [topic] entry is whatever the research has under [topic], and
    [None] when the research has none. *)
Theorem draft_post_topic_follows_research
    (research_data : pydict) (response_content : string) :
  dict_lookup "topic" (dm_parse research_data response_content)
  = Some (dict_get research_data "topic" VNone).
Proof.
  unfold draft_post_parse.
  destruct (dm_try research_data response_content) as [e|post] eqn:Htry.
  - destruct (is_json_decode_error e); reflexivity.
  - destruct (draft_post_try_returns _ _ _ _ _ Htry)
      as (pd & slides & n & -> & _). reflexivity.
Qed.

End DrafterMore.

(** ** The agents together *)

Section AssembledFacts.

Variable llm_invoke : world -> string -> string -> result string.
Variable tavily_search : world -> string -> result value.
Variable json_loads : string -> result value.
Variable py_repr : value -> string.
Variable researcher_cfg : researcher_config.
Variable drafter_cfg : drafter_config.
Variable editor_instructions : string.

Local Abbreviation as_researcher :=
  (the_researcher llm_invoke tavily_search py_repr researcher_cfg).
Local Abbreviation as_drafter :=
  (the_drafter llm_invoke json_loads py_repr drafter_cfg).
Local Abbreviation as_editor :=
  (the_editor llm_invoke tavily_search json_loads py_repr
              researcher_cfg drafter_cfg editor_instructions).
Local Abbreviation as_execute_action :=
  (editor_execute_action py_repr as_researcher as_drafter).

Lemma draft_post_world (r : pydict) (feedback : value) (w : world) :
  exists human,
    snd (draft_post as_drafter r feedback w)
    = (w ++ [LlmCall (drafter_instructions drafter_cfg) human])%list.
Proof.
  eexists. cbn [draft_post the_drafter mkDrafterAgent].
  unfold drafter_draft_post, bind, call_llm, ret.
  destruct (llm_invoke w _ _); reflexivity.
Qed.

Lemma research_world (topic : string) (focus : value) (w : world) :
  exists query human,
    snd (research as_researcher topic focus w)
    = (w ++ [SearchCall query;
             LlmCall (researcher_instructions researcher_cfg) human])%list.
Proof.
  cbn [research the_researcher mkResearcherAgent].
  destruct (search_topic_cases tavily_search py_repr topic focus w)
    as (text & Hs & _).
  eexists _, _. unfold researcher_research, bind, call_llm, ret.
  rewrite Hs. rewrite <- app_assoc.
  destruct (llm_invoke _ _ _); reflexivity.
Qed.

Lemma review_post_returns_displayable (post research d : pydict) (w w' : world) :
  review_post as_editor post research w = (inr d, w') ->
  displayable post = true.
Proof.
  cbn [review_post the_editor mkEditorInChiefAgent].
  unfold editor_review_post, bind, lift.
  cbn [format_post_for_display the_drafter mkDrafterAgent].
  intros H. apply (format_returns_iff_displayable py_repr).
  destruct (drafter_format_post_for_display py_repr post) as [e|text];
    [discriminate|].
  eexists. reflexivity.
Qed.

(** X20. A post that cannot be formatted stops the review before the
    model is asked anything: [review_post] raises and no external call is
    made. *)
Theorem review_makes_no_call_when_post_not_displayable
    (post research : pydict) (w : world) :
  displayable post = false ->
  exists e, review_post as_editor post research w = (inl e, w).
Proof.
  intros Hno.
  cbn [review_post the_editor mkEditorInChiefAgent].
  unfold editor_review_post, bind, lift.
  cbn [format_post_for_display the_drafter mkDrafterAgent].
  destruct (drafter_format_post_for_display py_repr post) as [e|text] eqn:Hf.
  - exists e. reflexivity.
  - assert (Hyes : displayable post = true).
    { apply (format_returns_iff_displayable py_repr). eexists. exact Hf. }
    congruence.
Qed.

(** X21. What a revision costs in external calls: a draft revision that
    returns has made exactly one model call, and a research revision that
    returns has made exactly one search followed by two model calls, the
    researcher's and the drafter's. *)
Theorem dispatch_external_calls
    (d r p : pydict) (topic : string) (w : world) r' p' w' :
  as_execute_action d r p topic w = (inr (r', p'), w') ->
  (dict_get d "decision" VNone = VStr "revise_draft" ->
   exists human,
     w' = (w ++ [LlmCall (drafter_instructions drafter_cfg) human])%list)
  /\ (dict_get d "decision" VNone = VStr "revise_research" ->
      exists query human1 human2,
        w' = (w ++ [SearchCall query;
                    LlmCall (researcher_instructions researcher_cfg) human1;
                    LlmCall (drafter_instructions drafter_cfg) human2])%list).
Proof.
  intros H. split; intros Hdec.
  - unfold editor_execute_action in H. rewrite Hdec in H. cbn [is_str] in H.
    change (String.eqb "revise_draft" "approve") with false in H.
    change (String.eqb "revise_draft" "revise_research") with false in H.
    change (String.eqb "revise_draft" "revise_draft") with true in H.
    cbv iota in H. unfold bind, lift, ret in H.
    destruct (py_iter (dict_get d "suggestions" (VList []))) as [e|items];
      [discriminate|].
    match type of H with
    | context [draft_post as_drafter r ?f w] =>
        destruct (draft_post_world r f w) as (human & Hw);
        destruct (draft_post as_drafter r f w) as [[e|p1] w1]
    end; [discriminate|].
    inversion H; subst. exists human. exact Hw.
  - unfold editor_execute_action in H. rewrite Hdec in H. cbn [is_str] in H.
    change (String.eqb "revise_research" "approve") with false in H.
    change (String.eqb "revise_research" "revise_research") with true in H.
    cbv iota in H. unfold bind, lift, ret in H.
    destruct (focus_areas_of _ _) as [e|focus]; [discriminate|].
    destruct (research_world topic focus w) as (query & human1 & Hw1).
    destruct (research as_researcher topic focus w) as [[e|r1] w1];
      [discriminate|].
    destruct (draft_post_world r1 VNone w1) as (human2 & Hw2).
    destruct (draft_post as_drafter r1 VNone w1) as [[e|p1] w2];
      [discriminate|].
    inversion H; subst. simpl in Hw1, Hw2.
    exists query, human1, human2. rewrite Hw2, Hw1, <- app_assoc.
    reflexivity.
Qed.

(** X22. What a completed run hands out can be printed: the final post
    is the draft the last review formatted without raising, so the
    formatter of [utils.py] that [main] applies to it returns too. This
    holds for any researcher and drafter nodes in the graph, as long as the
    editor is the repository's own. *)
Theorem final_post_can_be_printed
    (researcher : ResearcherAgent) (drafter : DrafterAgent)
    (limit : Z) (fuel : nat) (topic : string) (w : world) s' p w' :
  invoke py_repr researcher drafter as_editor limit fuel topic w
  = (Done (s', p), w') ->
  exists text,
    utils_format_post_for_display py_repr (final_post s') = inr text.
Proof.
  intros H.
  destruct (invoke_shape _ _ _ _ _ _ _ _ _ _ _ H)
    as (k & _ & _ & _ & (w0 & w1 & Hrev) & Hfp & _).
  apply review_post_returns_displayable in Hrev.
  apply utils_format_returns_iff_displayable. now rewrite Hfp.
Qed.

End AssembledFacts.

(** ** Concrete runs, further *)

Section MoreRuns.

Import Samples.
Import MoreSamples.

Local Abbreviation mr_invoke_from decision :=
  (invoke_from repr_sample stub_researcher stub_drafter (stub_editor decision)).
Local Abbreviation mr_invoke decision :=
  (invoke repr_sample stub_researcher stub_drafter (stub_editor decision)).
Local Abbreviation mr_run decision :=
  (run repr_sample stub_researcher stub_drafter (stub_editor decision)).
Local Abbreviation mr_start := (initial_state 3 "Random Forests").

Lemma invoke_keeps_topic_and_limit_witness :
  exists s' p w',
    mr_invoke_from "revise_draft" 10 Research mr_start [] = (Done (s', p), w')
    /\ topic s' = topic mr_start
    /\ max_iterations s' = max_iterations mr_start.
Proof.
  destruct (mr_invoke_from "revise_draft" 10 Research mr_start []) as [[[s' p]|e] w'] eqn:H;
    [|exfalso; vm_compute in H; discriminate..].
  exists s', p, w'. split; [reflexivity|].
  exact (invoke_keeps_topic_and_limit repr_sample stub_researcher
           stub_drafter (stub_editor "revise_draft")
           10 Research mr_start [] s' p w' H).
Defined.

Lemma invoke_path_shape_witness :
  exists s' p w',
    mr_invoke "revise_draft" 3 10 "Random Forests" [] = (Done (s', p), w')
    /\ exists k,
        p = (Research :: Draft :: revision_cycles k ++ [Review; Finalize])%list
        /\ review_steps p = S k
        /\ List.length p = (2 * k + 4)%nat
        /\ iteration s' = Z.of_nat (S k).
Proof.
  destruct (mr_invoke "revise_draft" 3 10 "Random Forests" []) as [[[s' p]|e] w'] eqn:H;
    [|exfalso; vm_compute in H; discriminate..].
  exists s', p, w'. split; [reflexivity|].
  exact (invoke_path_shape repr_sample stub_researcher stub_drafter
           (stub_editor "revise_draft") 3 10 "Random Forests" []
           s' p w' H).
Defined.

Lemma run_iterations_within_limit_witness :
  exists res w',
    mr_run "revise_draft" 3 10 "Random Forests" [] = (Done res, w')
    /\ 1 <= result_iterations res <= Z.max 1 3.
Proof.
  destruct (mr_run "revise_draft" 3 10 "Random Forests" [])
    as [[res|e] w'] eqn:H; [|exfalso; vm_compute in H; discriminate..].
  exists res, w'. split; [reflexivity|].
  exact (run_iterations_within_limit repr_sample stub_researcher stub_drafter
           (stub_editor "revise_draft") 3 10 "Random Forests" []
           res w' H).
Defined.

Lemma early_finish_means_approved_witness :
  exists s' p w',
    mr_invoke "approve" 3 10 "Random Forests" [] = (Done (s', p), w')
    /\ iteration s' < 3
    /\ dict_lookup "decision" (review_decision s') = Some (VStr "approve").
Proof.
  destruct (mr_invoke "approve" 3 10 "Random Forests" [])
    as [[[s' p]|e] w'] eqn:H; [|exfalso; vm_compute in H; discriminate..].
  assert (Hlt : iteration s' < 3).
  { vm_compute in H. inversion H. reflexivity. }
  exists s', p, w'. split; [reflexivity|]. split; [exact Hlt|].
  exact (early_finish_means_approved repr_sample stub_researcher stub_drafter
           (stub_editor "approve") 3 10 "Random Forests" []
           s' p w' H Hlt).
Defined.

Lemma final_post_is_the_reviewed_draft_witness :
  exists s' p w',
    mr_invoke "approve" 3 10 "Random Forests" [] = (Done (s', p), w')
    /\ final_post s' = post_data s'
    /\ exists w0 w1,
        review_post (stub_editor "approve") (final_post s')
                    (research_data s') w0
        = (inr (review_decision s'), w1).
Proof.
  destruct (mr_invoke "approve" 3 10 "Random Forests" []) as [[[s' p]|e] w'] eqn:H;
    [|exfalso; vm_compute in H; discriminate..].
  exists s', p, w'. split; [reflexivity|].
  exact (final_post_is_the_reviewed_draft repr_sample stub_researcher
           stub_drafter (stub_editor "approve") 3 10 "Random Forests" []
           s' p w' H).
Defined.

(** A record without a [decision], below the limit, is routed to a
    revision. *)
Lemma router_routes_exactly_witness :
  review_decision_router mr_start = revise.
Proof.
  apply (proj2 (proj2 (proj2 (router_routes_exactly mr_start)))).
  split; [simpl; lia|discriminate].
Defined.

Lemma search_topic_never_raises_witness :
  exists text,
    search_topic search_down repr_sample "Random Forests" VNone []
    = (inr text, [SearchCall "Random Forests"])
    /\ text = "Search error: search unavailable".
Proof.
  destruct (search_topic_never_raises search_down repr_sample
              "Random Forests" VNone [])
    as (text & Hrun & Herr & _).
  exists text. split; [exact Hrun|].
  exact (Herr (mkExn OtherException "search unavailable") eq_refl).
Defined.

Lemma search_topic_without_results_witness :
  search_topic search_nothing repr_sample "Random Forests" (VStr "bagging") []
  = (inr EmptyString, [SearchCall "Random Forests bagging"]).
Proof.
  exact (search_topic_without_results search_nothing repr_sample
           "Random Forests" (VStr "bagging") []
           [("results", VList [])] eq_refl eq_refl).
Defined.

(** White space is Python's, not only ASCII's: a no-break space (bytes
    194, 160 in UTF-8) separates words and is stripped, a zero-width space
    (bytes 226, 128, 139) is neither. *)
Example words_and_strip_follow_unicode :
  let nbsp := String (ascii_of_nat 194) (String (ascii_of_nat 160) EmptyString) in
  let zwsp := String (ascii_of_nat 226) (String (ascii_of_nat 128)
                (String (ascii_of_nat 139) EmptyString)) in
  word_count ("a" ++ nbsp ++ "b c") = 3
  /\ word_count ("a" ++ zwsp ++ "b c") = 2
  /\ word_count "  two   words  " = 2
  /\ word_count EmptyString = 0
  /\ strip (nbsp ++ " {} " ++ nbsp) = "{}"
  /\ strip (zwsp ++ " {} ") = zwsp ++ " {}".
Proof. vm_compute. repeat split. Qed.

Lemma research_fails_only_with_the_model_witness :
  exists w',
    researcher_research llm_down search_down repr_sample researcher_cfg
      "Random Forests" VNone []
    = (inl (mkExn OtherException "connection error"), w').
Proof.
  destruct (research_fails_only_with_the_model llm_down search_down
              repr_sample researcher_cfg "Random Forests" VNone [])
    as (text & _ & Hraise).
  eexists. exact (Hraise _ eq_refl).
Defined.

Lemma execute_action_other_kinds_noop_witness :
  editor_execute_action repr_sample stub_researcher stub_drafter
    approve_record some_research some_post "Random Forests" []
  = (inr (some_research, some_post), []).
Proof.
  exact (execute_action_other_kinds_noop repr_sample stub_researcher
           stub_drafter approve_record some_research some_post
           "Random Forests" [] eq_refl eq_refl).
Defined.

Lemma review_keeps_other_fields_witness :
  dict_lookup "feedback" (review_post_parse json_loads_sample maybe_text)
  = dict_lookup "feedback" maybe_record.
Proof.
  apply (review_keeps_other_fields json_loads_sample maybe_text maybe_record
           "feedback").
  - vm_compute. reflexivity.
  - discriminate.
Defined.

Lemma revise_research_rejects_non_string_suggestions_witness :
  exists msg,
    editor_execute_action repr_sample stub_researcher stub_drafter
      numbered_suggestions_record some_research some_post "Random Forests" []
    = (inl (mkExn TypeError msg), []).
Proof.
  apply (revise_research_rejects_non_string_suggestions repr_sample
           stub_researcher stub_drafter numbered_suggestions_record
           some_research some_post "Random Forests" []
           [VInt 1; VInt 2] (VInt 1)).
  - reflexivity.
  - reflexivity.
  - simpl. auto.
  - discriminate.
Defined.

Lemma format_post_for_display_returns_iff_displayable_witness :
  exists text, drafter_format_post_for_display repr_sample some_post = inr text.
Proof.
  apply (proj2 (format_post_for_display_returns_iff_displayable
                  repr_sample some_post)).
  reflexivity.
Defined.

Lemma formatters_accept_the_same_posts_witness :
  exists text, utils_format_post_for_display repr_sample some_post = inr text.
Proof.
  apply (proj1 (formatters_accept_the_same_posts repr_sample some_post)).
  eexists. vm_compute. reflexivity.
Defined.

Lemma fallback_post_is_displayable_witness :
  exists text,
    drafter_format_post_for_display repr_sample
      (draft_post_parse json_loads_sample (drafter_cfg 10) some_research "ok")
    = inr text.
Proof.
  apply (fallback_post_is_displayable json_loads_sample repr_sample
           (drafter_cfg 10) some_research "ok"
           (mkExn JSONDecodeError "Expecting value: line 1 column 1 (char 0)")).
  vm_compute. reflexivity.
Defined.

Lemma draft_post_missing_slides_key_witness :
  dict_lookup "slide_count"
    (draft_post_parse json_loads_sample (drafter_cfg 10) some_research
                      maybe_text)
  = Some (VInt 1).
Proof.
  rewrite (draft_post_missing_slides_key json_loads_sample (drafter_cfg 10)
             some_research maybe_text maybe_record).
  - reflexivity.
  - vm_compute. reflexivity.
  - reflexivity.
Defined.

Lemma draft_post_keeps_other_keys_witness :
  exists post kept,
    draft_post_try json_loads_sample (drafter_cfg 2) some_research
                   three_slides_text = inr post
    /\ dict_lookup "post" post = Some (VDict kept)
    /\ forall k, k <> "slides" ->
         dict_lookup k kept
         = dict_lookup k [("slides", VList [VStr "a"; VStr "b"; VStr "c"])].
Proof.
  eexists. 
  destruct (draft_post_keeps_other_keys json_loads_sample (drafter_cfg 2)
              some_research three_slides_text
              [("slides", VList [VStr "a"; VStr "b"; VStr "c"])] _
              ltac:(vm_compute; reflexivity) ltac:(vm_compute; reflexivity))
    as (kept & Hpost & Hother & _).
  exists kept. split; [reflexivity|]. split; [exact Hpost|exact Hother].
Defined.

Lemma review_makes_no_call_when_post_not_displayable_witness :
  exists e,
    review_post
      (the_editor (llm_says "ok") search_nothing json_loads_sample repr_sample
                  researcher_cfg (drafter_cfg 10) EmptyString)
      numbered_slides_post some_research []
    = (inl e, []).
Proof.
  apply (review_makes_no_call_when_post_not_displayable (llm_says "ok")
           search_nothing json_loads_sample repr_sample researcher_cfg
           (drafter_cfg 10) EmptyString numbered_slides_post some_research []).
  reflexivity.
Defined.

Lemma dispatch_external_calls_witness :
  exists r' p' w' human,
    editor_execute_action repr_sample
      (the_researcher (llm_says "ok") search_nothing repr_sample researcher_cfg)
      (the_drafter (llm_says "ok") json_loads_sample repr_sample
                   (drafter_cfg 10))
      revise_draft_record some_research some_post "Random Forests" []
    = (inr (r', p'), w')
    /\ w' = [LlmCall EmptyString human].
Proof.
  destruct (editor_execute_action repr_sample
              (the_researcher (llm_says "ok") search_nothing repr_sample
                              researcher_cfg)
              (the_drafter (llm_says "ok") json_loads_sample repr_sample
                           (drafter_cfg 10))
              revise_draft_record some_research some_post "Random Forests" [])
    as [[e|[r' p']] w'] eqn:H; [exfalso; vm_compute in H; discriminate|].
  destruct (proj1 (dispatch_external_calls (llm_says "ok") search_nothing
                     json_loads_sample repr_sample researcher_cfg
                     (drafter_cfg 10) revise_draft_record some_research
                     some_post "Random Forests" [] r' p' w' H) eq_refl)
    as (human & Hw).
  exists r', p', w', human. split; [reflexivity|exact Hw].
Defined.

Lemma final_post_can_be_printed_witness :
  exists s' p w' text,
    the_workflow_invoke (llm_says "ok") search_nothing json_loads_sample
      repr_sample researcher_cfg (drafter_cfg 10) EmptyString 1 30
      "Random Forests" [] = (Done (s', p), w')
    /\ utils_format_post_for_display repr_sample (final_post s') = inr text.
Proof.
  destruct (the_workflow_invoke (llm_says "ok") search_nothing
              json_loads_sample repr_sample researcher_cfg (drafter_cfg 10)
              EmptyString 1 30 "Random Forests" [])
    as [[[s' p]|e] w'] eqn:H; [|exfalso; vm_compute in H; discriminate..].
  destruct (final_post_can_be_printed (llm_says "ok") search_nothing
              json_loads_sample repr_sample researcher_cfg (drafter_cfg 10)
              EmptyString
              (the_researcher (llm_says "ok") search_nothing repr_sample
                              researcher_cfg)
              (the_drafter (llm_says "ok") json_loads_sample repr_sample
                           (drafter_cfg 10))
              1 30 "Random Forests" [] s' p w' H)
    as (text & Htext).
  exists s', p, w', text. split; [reflexivity|exact Htext].
Defined.

End MoreRuns.

(** ** The style vault *)

Lemma map_result_Forall {A B : Type} (f : A -> result B) (P : B -> Prop)
    (l : list A) (bs : list B) :
  (forall a b, f a = inr b -> P b) ->
  map_result f l = inr bs -> Forall P bs.
Proof.
  intros Hf. revert bs. induction l as [|a l IH]; simpl; intros bs H.
  - inversion H. constructor.
  - destruct (f a) as [e|b] eqn:Hb; [discriminate|].
    destruct (map_result f l) as [e|bs'] eqn:Hbs; [discriminate|].
    inversion H; subst. constructor; eauto.
Qed.

Lemma map_result_total {A B : Type} (f : A -> result B) (P : A -> Prop)
    (l : list A) :
  (forall a, P a -> exists b, f a = inr b) ->
  Forall P l -> exists bs, map_result f l = inr bs.
Proof.
  intros Hf Hall. induction Hall as [|a l Ha _ IH]; simpl.
  - eexists. reflexivity.
  - destruct (Hf a Ha) as (b & ->). destruct IH as (bs & ->).
    eexists. reflexivity.
Qed.

Lemma attrs_lookup_set (d : attrs) (k k' v : string) :
  attrs_lookup k (attrs_set d k' v)
  = if String.eqb k k' then Some v else attrs_lookup k d.
Proof.
  induction d as [|[k0 v0] d IH]; simpl.
  - destruct (String.eqb k k'); reflexivity.
  - destruct (String.eqb_spec k' k0) as [->|Hne]; simpl.
    + destruct (String.eqb k k0); reflexivity.
    + rewrite IH. destruct (String.eqb_spec k k') as [->|Hk].
      * destruct (String.eqb_spec k' k0); [contradiction|reflexivity].
      * reflexivity.
Qed.

Lemma Forall_firstn_keeps {A : Type} (P : A -> Prop) (n : nat) (l : list A) :
  Forall P l -> Forall P (firstn n l).
Proof.
  intros H. revert n. induction H as [|a l Ha _ IH]; intros [|n]; simpl;
    constructor; auto.
Qed.

Section StyleVaultFacts.

Variable re_finditer : string -> bool -> string -> list (string * string).
Variable re_search : string -> string -> option string.
Variable re_sub : string -> string -> string -> string.
Variable py_int : string -> option Z.
Variable py_lower : string -> string.
Variable read_file : string -> result string.
Variable py_repr : value -> string.

Local Abbreviation sv_load :=
  (load_style_vault re_finditer re_search re_sub py_int read_file).
Local Abbreviation sv_parse_attributes := (_parse_attributes re_finditer).
Local Abbreviation sv_by_id :=
  (get_post_by_id re_finditer re_search re_sub py_int read_file).
Local Abbreviation sv_by_topic :=
  (get_posts_by_topic re_finditer re_search re_sub py_int py_lower read_file).
Local Abbreviation sv_by_style :=
  (get_posts_by_style re_finditer re_search re_sub py_int read_file).
Local Abbreviation sv_examples :=
  (get_style_examples_for_prompt re_finditer re_search re_sub py_int
                                 read_file py_repr).

Lemma parse_slide_makes_slide m v :
  parse_slide re_search re_sub py_int m = inr v -> is_vault_slide v.
Proof.
  unfold parse_slide. destruct (py_int (fst m)); [|discriminate].
  intros H. inversion H; subst. unfold is_vault_slide. eauto 10.
Qed.

Lemma parse_post_makes_post m v :
  parse_post re_finditer re_search re_sub py_int m = inr v -> is_vault_post v.
Proof.
  unfold parse_post, _parse_slides.
  destruct (map_result _ (re_finditer slide_pattern true (snd m)))
    as [e|slides] eqn:Hs; [discriminate|].
  intros H. inversion H; subst. unfold is_vault_post.
  eexists _, _, _, _, slides. split; [reflexivity|].
  eapply map_result_Forall; [|exact Hs]. apply parse_slide_makes_slide.
Qed.

Lemma load_makes_posts (vault_file : string) :
  Forall is_vault_post (sv_load vault_file).
Proof.
  unfold load_style_vault.
  destruct (read_file vault_file) as [e|content]; [constructor|].
  unfold _parse_posts.
  destruct (map_result _ (re_finditer post_pattern true content))
    as [e|posts] eqn:Hp; [constructor|].
  eapply map_result_Forall; [|exact Hp]. apply parse_post_makes_post.
Qed.

Lemma first_with_id_is_find (posts : list value) (post_id : string) :
  Forall is_vault_post posts ->
  first_with_id posts post_id
  = inr (match find (post_id_is post_id) posts with
         | Some post => post
         | None => VNone
         end).
Proof.
  induction 1 as [|post posts Hpost _ IH]; [reflexivity|].
  destruct Hpost as (id & t & st & n & sl & -> & _).
  cbn [first_with_id find post_id_is py_getitem dict_lookup].
  change (String.eqb "id" "id") with true. cbv iota.
  destruct (is_str (VStr id) post_id); [reflexivity|exact IH].
Qed.

Lemma filter_result_is_filter (keep : value -> result bool)
    (test : value -> bool) (posts : list value) :
  (forall post, is_vault_post post -> keep post = inr (test post)) ->
  Forall is_vault_post posts ->
  filter_result keep posts = inr (filter test posts).
Proof.
  intros Hk. induction 1 as [|post posts Hpost _ IH]; [reflexivity|].
  simpl. rewrite (Hk post Hpost), IH.
  destruct (test post); reflexivity.
Qed.

Lemma example_slide_returns slide :
  is_vault_slide slide -> exists ls, example_slide py_repr slide = inr ls.
Proof.
  intros (pn & t & c & l & ->). eexists. reflexivity.
Qed.

Lemma format_post_as_example_returns post :
  is_vault_post post -> exists text, format_post_as_example py_repr post = inr text.
Proof.
  intros (id & t & st & n & sl & -> & Hsl).
  unfold format_post_as_example.
  cbn [py_getitem dict_lookup].
  change (String.eqb "topic" "id") with false.
  change (String.eqb "topic" "topic") with true.
  change (String.eqb "style" "id") with false.
  change (String.eqb "style" "topic") with false.
  change (String.eqb "style" "style") with true.
  change (String.eqb "slide_count" "id") with false.
  change (String.eqb "slide_count" "topic") with false.
  change (String.eqb "slide_count" "style") with false.
  change (String.eqb "slide_count" "slide_count") with true.
  change (String.eqb "slides" "id") with false.
  change (String.eqb "slides" "topic") with false.
  change (String.eqb "slides" "style") with false.
  change (String.eqb "slides" "slide_count") with false.
  change (String.eqb "slides" "slides") with true.
  cbv iota. cbn [py_iter].
  destruct (map_result_total (example_slide py_repr) is_vault_slide sl
              example_slide_returns Hsl) as (blocks & ->).
  eexists. reflexivity.
Qed.

(** X23. Whatever the vault file holds, and also when it cannot be read
    or parsed, every post [load_style_vault] returns is a record with the
    keys [id], [topic] and [style] holding text, [slide_count] holding an
    integer and [slides] holding a list of records, each with an integer
    [page_number] and textual [title], [content] and [layout]. *)
Theorem loaded_posts_are_well_formed (vault_file : string) :
  Forall is_vault_post
    (load_style_vault re_finditer re_search re_sub py_int read_file
                      vault_file).
Proof. apply load_makes_posts. Qed.

(** X24. None of the four queries on the vault raises, whatever the file
    holds and whatever is asked: each re-loads the vault, and works on
    posts that always have the keys it reads. *)
Theorem vault_queries_never_raise
    (vault_file post_id topic style : string) (limit : Z) :
  (exists post,
      get_post_by_id re_finditer re_search re_sub py_int read_file
                     vault_file post_id = inr post)
  /\ (exists posts,
      get_posts_by_topic re_finditer re_search re_sub py_int py_lower
                         read_file vault_file topic = inr posts)
  /\ (exists posts,
      get_posts_by_style re_finditer re_search re_sub py_int read_file
                         vault_file style = inr posts)
  /\ (exists text,
      get_style_examples_for_prompt re_finditer re_search re_sub py_int
                                    read_file py_repr vault_file limit
      = inr text).
Proof.
  pose proof (load_makes_posts vault_file) as Hwf.
  split; [|split; [|split]].
  - unfold get_post_by_id. rewrite first_with_id_is_find by exact Hwf.
    eexists. reflexivity.
  - unfold get_posts_by_topic.
    erewrite (filter_result_is_filter _
                (fun post =>
                   match post with
                   | VDict d =>
                       match dict_lookup "topic" d with
                       | Some (VStr t) =>
                           str_contains (py_lower topic) (py_lower t)
                       | _ => false
                       end
                   | _ => false
                   end)); [eexists; reflexivity| |exact Hwf].
    intros post (id & t & st & n & sl & -> & _). reflexivity.
  - unfold get_posts_by_style.
    erewrite (filter_result_is_filter _ (post_style_is style));
      [eexists; reflexivity| |exact Hwf].
    intros post (id & t & st & n & sl & -> & _). reflexivity.
  - unfold get_style_examples_for_prompt.
    destruct (sv_load vault_file) as [|post posts] eqn:Hload;
      [eexists; reflexivity|].
    assert (Hcut : Forall is_vault_post (list_slice_to (post :: posts) limit)).
    { unfold list_slice_to. apply Forall_firstn_keeps. exact Hwf. }
    destruct (map_result_total
                (fun p =>
                   (example <~ format_post_as_example py_repr p ;;
                    inr [example; nl ++ repeat_char "=" 50 ++ nl])%result)
                is_vault_post _
                ltac:(intros a Ha;
                      destruct (format_post_as_example_returns a Ha) as (t & ->);
                      eexists; reflexivity)
                Hcut) as (blocks & ->).
    eexists. reflexivity.
Qed.

(** X25. [get_post_by_id] returns the first loaded post whose [id] is
    the one asked for, and [None] when no loaded post has it. *)
Theorem get_post_by_id_finds_first (vault_file post_id : string) :
  get_post_by_id re_finditer re_search re_sub py_int read_file
                 vault_file post_id
  = inr (match find (post_id_is post_id) (sv_load vault_file) with
         | Some post => post
         | None => VNone
         end).
Proof.
  unfold get_post_by_id. apply first_with_id_is_find, load_makes_posts.
Qed.

(** X26. [get_posts_by_style] returns exactly the loaded posts whose
    [style] is the one asked for, in the order of the vault. *)
Theorem get_posts_by_style_is_a_filter (vault_file style : string) :
  get_posts_by_style re_finditer re_search re_sub py_int read_file
                     vault_file style
  = inr (filter (post_style_is style) (sv_load vault_file)).
Proof.
  unfold get_posts_by_style.
  apply filter_result_is_filter; [|apply load_makes_posts].
  intros post (id & t & st & n & sl & -> & _). reflexivity.
Qed.

(** X27. An attribute written more than once in a [<post>] tag takes
    its last value: what [_parse_attributes] holds under a key is the value
    of the last match for that key, and nothing when there is none. *)
Theorem repeated_attribute_takes_last_value (attributes_str k : string) :
  attrs_lookup k (_parse_attributes re_finditer attributes_str)
  = last_match k (re_finditer attr_pattern false attributes_str).
Proof.
  unfold _parse_attributes, last_match.
  generalize (re_finditer attr_pattern false attributes_str) as matches.
  intros matches.
  change (@None string) with (attrs_lookup k []).
  generalize (@nil (string * string)) as acc.
  induction matches as [|[key v] matches IH]; intros acc; simpl.
  - reflexivity.
  - rewrite IH, attrs_lookup_set. reflexivity.
Qed.

(** X28. How [limit] acts in [get_style_examples_for_prompt]: an empty
    vault gives the text [No style examples available.] for every limit;
    with a vault that has posts, a limit of zero gives the header line
    alone, and any limit at or above the number of posts gives what the
    number of posts itself gives. *)
Theorem style_examples_limit (vault_file : string) (limit : Z) :
  (sv_load vault_file = [] ->
   sv_examples vault_file limit = inr "No style examples available.")
  /\ (sv_load vault_file <> [] ->
      sv_examples vault_file 0
      = inr ("=== STYLE REFERENCE EXAMPLES ===" ++ nl))
  /\ (Z.of_nat (List.length (sv_load vault_file)) <= limit ->
      sv_examples vault_file limit
      = sv_examples vault_file (Z.of_nat (List.length (sv_load vault_file)))).
Proof.
  unfold get_style_examples_for_prompt. split; [|split].
  - intros ->. reflexivity.
  - destruct (sv_load vault_file) as [|post posts]; [contradiction|].
    intros _. reflexivity.
  - intros Hle.
    destruct (sv_load vault_file) as [|post posts]; [reflexivity|].
    rewrite (list_slice_to_nonneg (post :: posts) limit) by lia.
    rewrite (list_slice_to_nonneg (post :: posts)
               (Z.of_nat (List.length (post :: posts)))) by lia.
    rewrite Nat2Z.id, firstn_all, firstn_all2 by lia. reflexivity.
Qed.

End StyleVaultFacts.

Section VaultRuns.

Import VaultSamples.

Local Abbreviation vr_load :=
  (load_style_vault re_finditer_sample re_search_sample re_sub_sample
                    py_int_sample read_file_sample).

Example sample_vault_loads : vr_load "style_vault.md" = [the_post].
Proof. vm_compute. reflexivity. Qed.

Example missing_vault_is_empty : vr_load "nowhere.md" = [].
Proof. vm_compute. reflexivity. Qed.

Lemma style_examples_limit_witness :
  get_style_examples_for_prompt re_finditer_sample re_search_sample
    re_sub_sample py_int_sample read_file_sample Samples.repr_sample
    "style_vault.md" 0
  = inr ("=== STYLE REFERENCE EXAMPLES ===" ++ nl).
Proof.
  apply (proj1 (proj2 (style_examples_limit re_finditer_sample
                         re_search_sample re_sub_sample py_int_sample
                         read_file_sample Samples.repr_sample "style_vault.md" 0))).
  vm_compute. discriminate.
Defined.

End VaultRuns.
